(** * Upload orchestration of jfrog-cli (artifactory/commands/generic/upload.go)

    A shallow embedding of [Upload] and its helpers, and the properties of
    the upload pipeline stated over it.  External collaborators (the
    repository service client, the build-info store, the process
    environment) are an interface, [Collaborators]; the Go functions of
    upload.go are functions over it that thread a world state and record
    the calls they make. *)

From Stdlib Require Import ZArith String Ascii Lia Bool.
From stdpp Require Import base option list strings gmap.

Local Open Scope Z_scope.

(** ** Go primitives used by upload.go *)

Module Go.

(** [int64] (and [int] on 64-bit targets): arithmetic wraps around. *)
Definition minInt64 : Z := - 2 ^ 63.
Definition maxInt64 : Z := 2 ^ 63 - 1.
Definition maxUint64 : Z := 2 ^ 64 - 1.

Definition wrap64 (z : Z) : Z := (z + 2 ^ 63) mod 2 ^ 64 - 2 ^ 63.

Definition add64 (a b : Z) : Z := wrap64 (a + b).
Definition mul64 (a b : Z) : Z := wrap64 (a * b).

(** The [error] interface, with the two concrete errors the code meets:
    [errors.New] values and [*strconv.NumError]. [nil] is [None] of
    [option error]. *)
Inductive error : Type :=
| ErrorString (msg : string)
| NumError (Func Num : string) (Err : error).

#[global] Instance error_eq_dec : EqDecision error.
Proof. solve_decision. Defined.

Definition errors_New (msg : string) : error := ErrorString msg.
Definition ErrSyntax : error := ErrorString "invalid syntax".
Definition ErrRange : error := ErrorString "value out of range".

(** [strings.HasSuffix]:
    [len(s) >= len(suffix) && s[len(s)-len(suffix):] == suffix]. *)
Definition HasSuffix (s suffix : string) : bool :=
  (String.length suffix <=? String.length s)%nat
  && String.eqb
       (String.substring (String.length s - String.length suffix)
                         (String.length suffix) s)
       suffix.

(** [strconv.ParseUint]: the digit loop, left to right, stopping at the
    first byte that is no digit of the base or at the first overflow. *)
Definition digitVal (c : ascii) : option Z :=
  let d := Z.of_N (N_of_ascii c) in
  if (48 <=? d) && (d <=? 57) then Some (d - 48)
  else if (97 <=? d) && (d <=? 122) then Some (d - 97 + 10)
  else if (65 <=? d) && (d <=? 90) then Some (d - 65 + 10)
  else None.

Fixpoint parseUintLoop (base maxVal : Z) (s : string) (n : Z)
  : Z * option error :=
  match s with
  | EmptyString => (n, None)
  | String c rest =>
    match digitVal c with
    | None => (0, Some ErrSyntax)
    | Some v =>
      if base <=? v then (0, Some ErrSyntax)
      else if maxUint64 / base + 1 <=? n then (maxUint64, Some ErrRange)
      else
        let n1 := n * base + v in
        if maxVal <? n1 then (maxUint64, Some ErrRange)
        else parseUintLoop base maxVal rest n1
    end
  end.

Definition ParseUint (s : string) (base bitSize : Z) : Z * option error :=
  match s with
  | EmptyString => (0, Some (NumError "ParseUint" s ErrSyntax))
  | _ =>
    match parseUintLoop base (2 ^ bitSize - 1) s 0 with
    | (n, None) => (n, None)
    | (n, Some e) => (n, Some (NumError "ParseUint" s e))
    end
  end.

(** [strconv.ParseInt] for an explicit base (2..36) and bit size: the sign
    is picked off, the rest goes through [ParseUint], and the result is
    checked against the signed range.  A syntax error of [ParseUint] is
    returned at once; a range error falls through to the range checks. *)
Definition ParseInt (s : string) (base bitSize : Z) : Z * option error :=
  match s with
  | EmptyString => (0, Some (NumError "ParseInt" s ErrSyntax))
  | String c0 rest =>
    let neg := Ascii.eqb c0 "-" in
    let s1 := if Ascii.eqb c0 "+" || neg then rest else s in
    let '(un, err) := ParseUint s1 base bitSize in
    let cutoff := 2 ^ (bitSize - 1) in
    let checked :=
      if negb neg && (cutoff <=? un)
      then (cutoff - 1, Some (NumError "ParseInt" s ErrRange))
      else if neg && (cutoff <? un)
      then (- cutoff, Some (NumError "ParseInt" s ErrRange))
      else (if neg then - un else un, None) in
    match err with
    | None => checked
    | Some (NumError _ _ e) =>
      if bool_decide (e = ErrRange) then checked
      else (0, Some (NumError "ParseInt" s e))
    | Some e => (0, Some e)
    end
  end.

(** [strconv.ParseBool]. *)
Definition ParseBool (str : string) : bool * option error :=
  if bool_decide (str ∈ ["1"; "t"; "T"; "true"; "TRUE"; "True"]) then (true, None)
  else if bool_decide (str ∈ ["0"; "f"; "F"; "false"; "FALSE"; "False"]) then (false, None)
  else (false, Some (NumError "ParseBool" str ErrSyntax)).

(** [os.Getenv]: the value, or the empty string when the variable is not
    set. *)
Definition Getenv (environ : gmap string string) (key : string) : string :=
  default ""%string (environ !! key).

End Go.

Import Go.

(** ** Data of the packages upload.go imports *)

(** Modelled from the spec: [spec.File] and [spec.SpecFiles] are declared
    outside upload.go.  An entry is its source pattern, target path,
    property string and five optional boolean overrides; the overrides are
    kept raw, as the text of the specification entry, the empty string
    being an absent override. *)
Module spec.

Record File : Type := {
  Pattern : string;
  Target : string;
  Props : string;
  Recursive : string;
  Regexp : string;
  IncludeDirs : string;
  Flat : string;
  Explode : string;
}.

Definition setProps (f : File) (props : string) : File :=
  {| Pattern := Pattern f; Target := Target f; Props := props;
     Recursive := Recursive f; Regexp := Regexp f;
     IncludeDirs := IncludeDirs f; Flat := Flat f; Explode := Explode f |}.

(** [new(File)]: every field at its zero value. *)
Definition zeroFile : File :=
  {| Pattern := ""; Target := ""; Props := ""; Recursive := ""; Regexp := "";
     IncludeDirs := ""; Flat := ""; Explode := "" |}.

Record SpecFiles : Type := { Files : list File }.

(** Modelled from the spec: [SpecFiles.Get] is not in upload.go; it yields
    the entry at an index of the ordered sequence of entries (a fresh
    zero entry past its end, which [Upload] never asks for). *)
Definition Get (s : SpecFiles) (index : nat) : File :=
  default zeroFile (Files s !! index).

(** Modelled from the spec: the "get or default" lookup of an optional
    boolean override is not in upload.go; it resolves to the default when
    the override is absent and fails when the raw value is present but
    does not parse as a boolean. *)
Definition getOrDefault (raw : string) (defaultValue : bool)
  : bool * option error :=
  if String.eqb raw "" then (defaultValue, None) else ParseBool raw.

Definition IsRecursive (f : File) (defaultValue : bool) := getOrDefault (Recursive f) defaultValue.
Definition IsRegexp (f : File) (defaultValue : bool) := getOrDefault (Regexp f) defaultValue.
Definition IsIncludeDirs (f : File) (defaultValue : bool) := getOrDefault (IncludeDirs f) defaultValue.
Definition IsFlat (f : File) (defaultValue : bool) := getOrDefault (Flat f) defaultValue.
Definition IsExplode (f : File) (defaultValue : bool) := getOrDefault (Explode f) defaultValue.

End spec.

(** [clientutils.ArtifactoryCommonParams] and [services.UploadParams]. *)
Module services.

Record ArtifactoryCommonParams : Type := {
  Pattern : string;
  Target : string;
  Props : string;
}.

Record UploadParams : Type := {
  Common : ArtifactoryCommonParams;
  Recursive : bool;
  Regexp : bool;
  IncludeDirs : bool;
  Flat : bool;
  ExplodeArchive : bool;
  Deb : string;
  Symlink : bool;
  Retries : Z;
}.

(** Modelled from the spec: [File.ToArtifactoryCommonParams] is not in
    upload.go; it carries the entry's common path/target parameters. *)
Definition ToArtifactoryCommonParams (f : spec.File) : ArtifactoryCommonParams :=
  {| Pattern := spec.Pattern f; Target := spec.Target f; Props := spec.Props f |}.

(** [services.NewUploadParams]: every field at its zero value. *)
Definition NewUploadParams : UploadParams :=
  {| Common := {| Pattern := ""; Target := ""; Props := "" |};
     Recursive := false; Regexp := false; IncludeDirs := false; Flat := false;
     ExplodeArchive := false; Deb := ""; Symlink := false; Retries := 0 |}.

Definition setCommon (p : UploadParams) (c : ArtifactoryCommonParams) : UploadParams :=
  {| Common := c; Recursive := Recursive p; Regexp := Regexp p;
     IncludeDirs := IncludeDirs p; Flat := Flat p;
     ExplodeArchive := ExplodeArchive p; Deb := Deb p; Symlink := Symlink p;
     Retries := Retries p |}.
Definition setRecursive (p : UploadParams) (b : bool) : UploadParams :=
  {| Common := Common p; Recursive := b; Regexp := Regexp p;
     IncludeDirs := IncludeDirs p; Flat := Flat p;
     ExplodeArchive := ExplodeArchive p; Deb := Deb p; Symlink := Symlink p;
     Retries := Retries p |}.
Definition setRegexp (p : UploadParams) (b : bool) : UploadParams :=
  {| Common := Common p; Recursive := Recursive p; Regexp := b;
     IncludeDirs := IncludeDirs p; Flat := Flat p;
     ExplodeArchive := ExplodeArchive p; Deb := Deb p; Symlink := Symlink p;
     Retries := Retries p |}.
Definition setIncludeDirs (p : UploadParams) (b : bool) : UploadParams :=
  {| Common := Common p; Recursive := Recursive p; Regexp := Regexp p;
     IncludeDirs := b; Flat := Flat p;
     ExplodeArchive := ExplodeArchive p; Deb := Deb p; Symlink := Symlink p;
     Retries := Retries p |}.
Definition setFlat (p : UploadParams) (b : bool) : UploadParams :=
  {| Common := Common p; Recursive := Recursive p; Regexp := Regexp p;
     IncludeDirs := IncludeDirs p; Flat := b;
     ExplodeArchive := ExplodeArchive p; Deb := Deb p; Symlink := Symlink p;
     Retries := Retries p |}.
Definition setExplodeArchive (p : UploadParams) (b : bool) : UploadParams :=
  {| Common := Common p; Recursive := Recursive p; Regexp := Regexp p;
     IncludeDirs := IncludeDirs p; Flat := Flat p;
     ExplodeArchive := b; Deb := Deb p; Symlink := Symlink p;
     Retries := Retries p |}.
Definition setDeb (p : UploadParams) (d : string) : UploadParams :=
  {| Common := Common p; Recursive := Recursive p; Regexp := Regexp p;
     IncludeDirs := IncludeDirs p; Flat := Flat p;
     ExplodeArchive := ExplodeArchive p; Deb := d; Symlink := Symlink p;
     Retries := Retries p |}.
Definition setSymlink (p : UploadParams) (b : bool) : UploadParams :=
  {| Common := Common p; Recursive := Recursive p; Regexp := Regexp p;
     IncludeDirs := IncludeDirs p; Flat := Flat p;
     ExplodeArchive := ExplodeArchive p; Deb := Deb p; Symlink := b;
     Retries := Retries p |}.
Definition setRetries (p : UploadParams) (r : Z) : UploadParams :=
  {| Common := Common p; Recursive := Recursive p; Regexp := Regexp p;
     IncludeDirs := IncludeDirs p; Flat := Flat p;
     ExplodeArchive := ExplodeArchive p; Deb := Deb p; Symlink := Symlink p;
     Retries := r |}.

End services.

(** [buildinfo.Partial]: the artifact list, and the fields [Upload] never
    touches. *)
Module buildinfo.

Record Partial (Artifact Rest : Type) : Type := {
  Artifacts : list Artifact;
  Others : Rest;
}.
Arguments Artifacts {_ _} _.
Arguments Others {_ _} _.

Definition setArtifacts {Artifact Rest : Type}
    (partial : Partial Artifact Rest) (artifacts : list Artifact)
  : Partial Artifact Rest :=
  {| Artifacts := artifacts; Others := Others partial |}.

End buildinfo.

(** What [artifactory.NewConfigBuilder()...Build()] is given. *)
Module artifactory.

Record ConfigBuilder (ArtAuth : Type) : Type := {
  ArtDetails : ArtAuth;
  DryRun : bool;
  CertificatesPath : string;
  MinChecksumDeploy : Z;
  Threads : Z;
}.
Arguments ArtDetails {_} _.
Arguments DryRun {_} _.
Arguments CertificatesPath {_} _.
Arguments MinChecksumDeploy {_} _.
Arguments Threads {_} _.

End artifactory.

(** ** The collaborators of the upload core

    Everything upload.go calls outside its own file: opaque data of the
    client library, and operations on the outside world, each a function
    from the world before the call to its Go results and the world after. *)
Class Collaborators : Type := {
  World : Type;
  FileInfo : Type;
  Artifact : Type;
  zeroArtifact : Artifact;
  ToBuildArtifacts : FileInfo -> Artifact;
  PartialRest : Type;
  ArtifactoryDetails : Type;
  ArtAuth : Type;
  Config : Type;
  nilConfig : Config;
  ServicesManager : Type;
  environ : World -> gmap string string;
  GetJfrogSecurityDir : World -> (string * option error) * World;
  CreateArtAuthConfig :
    ArtifactoryDetails -> World -> (ArtAuth * option error) * World;
  Build :
    artifactory.ConfigBuilder ArtAuth -> World -> (Config * option error) * World;
  New : Config -> World -> (ServicesManager * option error) * World;
  SaveBuildGeneralDetails : string -> string -> World -> option error * World;
  CreateBuildProperties :
    string -> string -> World -> (string * option error) * World;
  UploadFiles :
    ServicesManager -> services.UploadParams -> World ->
    (list FileInfo * Z * Z * option error) * World;
  SavePartialBuildInfo :
    string -> string ->
    (buildinfo.Partial Artifact PartialRest -> buildinfo.Partial Artifact PartialRest) ->
    World -> option error * World;
}.

(** [errorutils.CheckError] hands its argument back. *)
Definition CheckError (err : option error) : option error := err.

Section Upload.
Context `{Collaborators}.

Definition Partial : Type := buildinfo.Partial Artifact PartialRest.

(** The calls a run makes to the build-info store, the property formatter,
    the service client and the logger, each with what it was given and
    what it answered. *)
Inductive Event : Type :=
| EvSaveBuildGeneralDetails (buildName buildNumber : string) (err : option error)
| EvCreateBuildProperties (buildName buildNumber : string) (res : string * option error)
| EvUploadFiles (params : services.UploadParams)
    (res : list FileInfo * Z * Z * option error)
| EvLogError (err : error)
| EvSavePartialBuildInfo (buildName buildNumber : string)
    (populateFunc : Partial -> Partial) (err : option error).

(** Computations of upload.go: from the world to a result, the world after,
    and the calls made, oldest first. *)
Definition M (A : Type) : Type := World -> A * World * list Event.

Definition ret {A : Type} (a : A) : M A := fun w => (a, w, []).

Definition bind {A B : Type} (m : M A) (k : A -> M B) : M B :=
  fun w =>
    let '(a, w1, t1) := m w in
    let '(b, w2, t2) := k a w1 in
    (b, w2, t1 ++ t2).

Definition call {A : Type} (op : World -> A * World) (ev : A -> Event) : M A :=
  fun w => let '(a, w1) := op w in (a, w1, [ev a]).

Definition quiet {A : Type} (op : World -> A * World) : M A :=
  fun w => let '(a, w1) := op w in (a, w1, []).

Definition os_environ : M (gmap string string) := fun w => (environ w, w, []).

Definition log_Error (err : error) : M unit := fun w => (tt, w, [EvLogError err]).

End Upload.

Declare Scope go_scope.
Delimit Scope go_scope with go.
Notation "'let*' p ':=' m 'in' k" := (bind m (fun p => k))
  (at level 10, p pattern, m at level 100, k at level 200) : go_scope.
Local Open Scope go_scope.

Section Code.
Context `{Collaborators}.

(** [for i := 0; i < n; i++ { body }] over loop variables of type [S]. *)
Fixpoint forEach {I V : Type} (idx : list I) (body : I -> V -> M V) (v : V) : M V :=
  match idx with
  | [] => ret v
  | i :: rest => let* v1 := body i v in forEach rest body v1
  end.

Definition forRange {V : Type} (n : nat) (body : nat -> V -> M V) (v : V) : M V :=
  forEach (seq 0 n) body v.

(** [for i, x := range l { body }], without effects. *)
Fixpoint rangeFrom {A V : Type} (i : nat) (l : list A) (body : nat -> A -> V -> V) (v : V) : V :=
  match l with
  | [] => v
  | x :: rest => rangeFrom (S i) rest body (body i x v)
  end.

Record UploadConfiguration : Type := {
  Deb : string;
  Threads : Z;
  MinChecksumDeploySize : Z;
  BuildName : string;
  BuildNumber : string;
  DryRun : bool;
  Symlink : bool;
  ExplodeArchive : bool;
  ArtDetails : ArtifactoryDetails;
  Retries : Z;
}.

(** upload.go:95 *)
Definition convertFileInfoToBuildArtifacts (filesInfo : list FileInfo) : list Artifact :=
  let buildArtifacts := replicate (length filesInfo) zeroArtifact in
  rangeFrom 0 filesInfo
    (fun i fileInfo buildArtifacts => <[i := ToBuildArtifacts fileInfo]> buildArtifacts)
    buildArtifacts.

(** upload.go:103 *)
Definition createUploadServiceConfig (artDetails : ArtifactoryDetails)
    (flags : UploadConfiguration) (certPath : string) (minChecksumDeploySize : Z)
  : M (Config * option error) :=
  let* (artAuth, err) := quiet (CreateArtAuthConfig artDetails) in
  match err with
  | Some e => ret (nilConfig, Some e)
  | None =>
    quiet (Build {| artifactory.ArtDetails := artAuth;
                    artifactory.DryRun := DryRun flags;
                    artifactory.CertificatesPath := certPath;
                    artifactory.MinChecksumDeploy := minChecksumDeploySize;
                    artifactory.Threads := Threads flags |})
  end.

(** upload.go:119 *)
Definition getMinChecksumDeploySize (environ : gmap string string) : Z * option error :=
  let minChecksumDeploySize := Getenv environ "JFROG_CLI_MIN_CHECKSUM_DEPLOY_SIZE_KB" in
  if String.eqb minChecksumDeploySize "" then (10240, None)
  else
    let '(minSize, err) := ParseInt minChecksumDeploySize 10 64 in
    let err := CheckError err in
    match err with
    | Some e => (0, Some e)
    | None => (mul64 minSize 1000, None)
    end.

(** upload.go:132.  The property string behind [props] is returned beside
    the error: what [*props] holds when the function returns. *)
Definition addBuildProps (props : string) (buildName buildNumber : string)
  : M (string * option error) :=
  if String.eqb buildName "" || String.eqb buildNumber "" then ret (props, None)
  else
    let* (buildProps, err) :=
      call (CreateBuildProperties buildName buildNumber)
           (EvCreateBuildProperties buildName buildNumber) in
    match err with
    | Some e => ret (props, Some e)
    | None =>
      let props :=
        if (0 <? String.length props)%nat && negb (HasSuffix props ";")
           && (0 <? String.length buildProps)%nat
        then (props +:+ ";")%string else props in
      ret ((props +:+ buildProps)%string, None)
    end.

(** upload.go:161.  The results are named, so the parameters filled in so
    far come back beside the error. *)
Definition getUploadParams (f : spec.File) (configuration : UploadConfiguration)
  : services.UploadParams * option error :=
  let uploadParams := services.NewUploadParams in
  let uploadParams :=
    services.setCommon uploadParams (services.ToArtifactoryCommonParams f) in
  let '(recursive, err) := spec.IsRecursive f true in
  let uploadParams := services.setRecursive uploadParams recursive in
  match err with
  | Some e => (uploadParams, Some e)
  | None =>
  let '(regexp, err) := spec.IsRegexp f false in
  let uploadParams := services.setRegexp uploadParams regexp in
  match err with
  | Some e => (uploadParams, Some e)
  | None =>
  let '(includeDirs, err) := spec.IsIncludeDirs f false in
  let uploadParams := services.setIncludeDirs uploadParams includeDirs in
  match err with
  | Some e => (uploadParams, Some e)
  | None =>
  let '(flat, err) := spec.IsFlat f true in
  let uploadParams := services.setFlat uploadParams flat in
  match err with
  | Some e => (uploadParams, Some e)
  | None =>
  let '(explodeArchive, err) := spec.IsExplode f false in
  let uploadParams := services.setExplodeArchive uploadParams explodeArchive in
  match err with
  | Some e => (uploadParams, Some e)
  | None =>
    let uploadParams := services.setDeb uploadParams (Deb configuration) in
    let uploadParams := services.setSymlink uploadParams (Symlink configuration) in
    let uploadParams := services.setRetries uploadParams (Retries configuration) in
    (uploadParams, None)
  end end end end end.

(** The variables of [Upload] that its transfer loop updates. *)
Record LoopVars : Type := {
  filesInfo : list FileInfo;
  errorOccurred : bool;
  successCount : Z;
  failCount : Z;
}.

Definition setErrorOccurred (v : LoopVars) : LoopVars :=
  {| filesInfo := filesInfo v; errorOccurred := true;
     successCount := successCount v; failCount := failCount v |}.

(** upload.go:23-39, "Create Service Manager": the manager, or the error
    [Upload] returns at once with zero counts. *)
Definition createServiceManager (configuration : UploadConfiguration)
  : M (error + ServicesManager) :=
  let* (certPath, err) := quiet GetJfrogSecurityDir in
  match err with
  | Some e => ret (inl e)
  | None =>
  let* environ := os_environ in
  let '(minChecksumDeploySize, err) := getMinChecksumDeploySize environ in
  match err with
  | Some e => ret (inl e)
  | None =>
  let* (servicesConfig, err) :=
    createUploadServiceConfig (ArtDetails configuration) configuration
                              certPath minChecksumDeploySize in
  match err with
  | Some e => ret (inl e)
  | None =>
  let* (servicesManager, err) := quiet (New servicesConfig) in
  match err with
  | Some e => ret (inl e)
  | None => ret (inr servicesManager)
  end end end end.

Definition isCollectBuildInfo (configuration : UploadConfiguration) : bool :=
  (0 <? String.length (BuildName configuration))%nat
  && (0 <? String.length (BuildNumber configuration))%nat.

(** upload.go:47-49: the body of the property-injection loop.  The error
    [addBuildProps] returns is dropped. *)
Definition addBuildPropsAt (configuration : UploadConfiguration) (i : nat)
    (uploadSpec : spec.SpecFiles) : M spec.SpecFiles :=
  let f := spec.Get uploadSpec i in
  let* (props, _) :=
    addBuildProps (spec.Props f) (BuildName configuration) (BuildNumber configuration) in
  ret {| spec.Files := <[i := spec.setProps f props]> (spec.Files uploadSpec) |}.

(** upload.go:41-50, "Build Info Collection": the specification with the
    build properties injected, or the error [Upload] returns at once. *)
Definition buildInfoCollection (uploadSpec : spec.SpecFiles)
    (configuration : UploadConfiguration) : M (spec.SpecFiles * option error) :=
  if isCollectBuildInfo configuration && negb (DryRun configuration) then
    let* err :=
      call (SaveBuildGeneralDetails (BuildName configuration) (BuildNumber configuration))
           (EvSaveBuildGeneralDetails (BuildName configuration) (BuildNumber configuration)) in
    match err with
    | Some e => ret (uploadSpec, Some e)
    | None =>
      let* uploadSpec :=
        forRange (length (spec.Files uploadSpec)) (addBuildPropsAt configuration) uploadSpec in
      ret (uploadSpec, None)
    end
  else ret (uploadSpec, None).

(** upload.go:55-74: the body of the transfer loop. *)
Definition uploadEntry (servicesManager : ServicesManager)
    (uploadSpec : spec.SpecFiles) (configuration : UploadConfiguration)
    (i : nat) (v : LoopVars) : M LoopVars :=
  let '(uploadParams, err) := getUploadParams (spec.Get uploadSpec i) configuration in
  match err with
  | Some e =>
    let* _ := log_Error e in
    ret (setErrorOccurred v)
  | None =>
    let* (artifacts, uploaded, failed, err) :=
      call (UploadFiles servicesManager uploadParams) (EvUploadFiles uploadParams) in
    let v := {| filesInfo := filesInfo v ++ artifacts;
                errorOccurred := errorOccurred v;
                successCount := add64 (successCount v) uploaded;
                failCount := add64 (failCount v) failed |} in
    match err with
    | Some e =>
      let* _ := log_Error e in
      ret (setErrorOccurred v)
    | None => ret v
    end
  end.

(** upload.go:52-74, "Upload Loop". *)
Definition uploadLoop (servicesManager : ServicesManager)
    (uploadSpec : spec.SpecFiles) (configuration : UploadConfiguration) : M LoopVars :=
  forRange (length (spec.Files uploadSpec))
    (uploadEntry servicesManager uploadSpec configuration)
    {| filesInfo := []; errorOccurred := false; successCount := 0; failCount := 0 |}.

Definition finishedWithErrors : error :=
  errors_New "Upload finished with errors. Please review the logs".

(** upload.go:21.  Beside the Go results stands the specification as the
    run leaves it: its property strings are written in place. *)
Definition Upload (uploadSpec : spec.SpecFiles) (configuration : UploadConfiguration)
  : M (spec.SpecFiles * (Z * Z * option error)) :=
  let* r := createServiceManager configuration in
  match r with
  | inl e => ret (uploadSpec, (0, 0, Some e))
  | inr servicesManager =>
  let* (uploadSpec, err) := buildInfoCollection uploadSpec configuration in
  match err with
  | Some e => ret (uploadSpec, (0, 0, Some e))
  | None =>
  let* v := uploadLoop servicesManager uploadSpec configuration in
  if errorOccurred v then
    ret (uploadSpec, (successCount v, failCount v, Some finishedWithErrors))
  else if 0 <? failCount v then
    ret (uploadSpec, (successCount v, failCount v, None))
  else if isCollectBuildInfo configuration && negb (DryRun configuration) then
    let buildArtifacts := convertFileInfoToBuildArtifacts (filesInfo v) in
    let populateFunc := fun partial : Partial => buildinfo.setArtifacts partial buildArtifacts in
    let* err :=
      call (SavePartialBuildInfo (BuildName configuration) (BuildNumber configuration) populateFunc)
           (EvSavePartialBuildInfo (BuildName configuration) (BuildNumber configuration) populateFunc) in
    ret (uploadSpec, (successCount v, failCount v, err))
  else ret (uploadSpec, (successCount v, failCount v, None))
  end end.

End Code.

(** ** Notions the properties are stated with *)

(** A string ends with a separator when it is some string followed by [";"]. *)
Definition endsWithSeparator (s : string) : Prop :=
  exists q : string, s = (q +:+ ";")%string.

(** Entry by entry, property injection changes the property string and
    nothing else. *)
Definition sameButProps (f f' : spec.File) : Prop :=
  exists props : string, f' = spec.setProps f props.

(** ** What a run shows

    Readings of the calls a run made, and of the specification it was
    given. *)
Section Observations.
Context `{Collaborators}.

Definition isGeneralDetails (ev : Event) : bool :=
  match ev with EvSaveBuildGeneralDetails _ _ _ => true | _ => false end.
Definition isFormatterCall (ev : Event) : bool :=
  match ev with EvCreateBuildProperties _ _ _ => true | _ => false end.
Definition isClientCall (ev : Event) : bool :=
  match ev with EvUploadFiles _ _ => true | _ => false end.
Definition isLog (ev : Event) : bool :=
  match ev with EvLogError _ => true | _ => false end.
Definition isCommit (ev : Event) : bool :=
  match ev with EvSavePartialBuildInfo _ _ _ _ => true | _ => false end.

(** The property formatter answered with an error. *)
Definition formatterFailed (ev : Event) : bool :=
  match ev with EvCreateBuildProperties _ _ (_, Some _) => true | _ => false end.

(** The service client answered with an error. *)
Definition clientFailed (ev : Event) : bool :=
  match ev with EvUploadFiles _ (_, _, _, Some _) => true | _ => false end.

Definition uploadedOf (ev : Event) : Z :=
  match ev with EvUploadFiles _ (_, uploaded, _, _) => uploaded | _ => 0 end.
Definition failedOf (ev : Event) : Z :=
  match ev with EvUploadFiles _ (_, _, failed, _) => failed | _ => 0 end.
Definition artifactsOf (ev : Event) : list FileInfo :=
  match ev with EvUploadFiles _ (artifacts, _, _, _) => artifacts | _ => [] end.

(** The sub-counts and descriptors the client returned over a run, added up
    as integers and concatenated in call order. *)
Definition sumUploaded (tr : list Event) : Z := foldr (fun ev a => uploadedOf ev + a) 0 tr.
Definition sumFailed (tr : list Event) : Z := foldr (fun ev a => failedOf ev + a) 0 tr.
Definition collected (tr : list Event) : list FileInfo := concat (map artifactsOf tr).

(** The calls to the service client, in order. *)
Definition clientCalls (tr : list Event) : list Event := filter (fun ev => isClientCall ev = true) tr.

(** The parameters the client was called with, in order. *)
Definition callParams (tr : list Event) : list services.UploadParams :=
  omap (fun ev => match ev with EvUploadFiles params _ => Some params | _ => None end) tr.

(** An entry's parameters, when they can be built. *)
Definition okParams (configuration : UploadConfiguration) (f : spec.File)
  : option services.UploadParams :=
  match getUploadParams f configuration with
  | (params, None) => Some params
  | (_, Some _) => None
  end.

(** An entry's parameters cannot be built. *)
Definition paramsFail (configuration : UploadConfiguration) (f : spec.File) : bool :=
  match snd (getUploadParams f configuration) with Some _ => true | None => false end.

(** Some entry's parameter build, or some call to the client, returned an
    error. *)
Definition entryError (uploadSpec : spec.SpecFiles) (configuration : UploadConfiguration)
    (tr : list Event) : bool :=
  existsb (paramsFail configuration) (spec.Files uploadSpec) || existsb clientFailed tr.

(** An optional boolean override that is present and does not parse. *)
Definition badOverride (raw : string) : Prop :=
  raw <> ""%string /\ snd (ParseBool raw) <> None.

Definition malformed (f : spec.File) : Prop :=
  badOverride (spec.Recursive f) \/ badOverride (spec.Regexp f)
  \/ badOverride (spec.IncludeDirs f) \/ badOverride (spec.Flat f)
  \/ badOverride (spec.Explode f).

(** The run passed "Create Service Manager" and "Build Info Collection":
    the manager, the specification, the world and the calls made when the
    transfer loop starts. *)
Definition entersLoop (uploadSpec : spec.SpecFiles) (configuration : UploadConfiguration)
    (w : World) : option (ServicesManager * spec.SpecFiles * World * list Event) :=
  match createServiceManager configuration w with
  | (inl _, _, _) => None
  | (inr servicesManager, w1, t1) =>
    match buildInfoCollection uploadSpec configuration w1 with
    | ((_, Some _), _, _) => None
    | ((uploadSpec1, None), w2, t2) => Some (servicesManager, uploadSpec1, w2, t1 ++ t2)
    end
  end.

(** One pass of the transfer loop, on the entry itself. *)
Definition uploadFile (servicesManager : ServicesManager) (configuration : UploadConfiguration)
    (f : spec.File) (v : LoopVars) : M LoopVars :=
  uploadEntry servicesManager {| spec.Files := [f] |} configuration 0 v.

(** The property-injection loop, entry by entry. *)
Fixpoint injectAll (configuration : UploadConfiguration) (files : list spec.File)
  : M (list spec.File) :=
  match files with
  | [] => ret []
  | f :: rest =>
    let* (props, _) :=
      addBuildProps (spec.Props f) (BuildName configuration) (BuildNumber configuration) in
    let* rest' := injectAll configuration rest in
    ret (spec.setProps f props :: rest')
  end.

Definition initialVars : LoopVars :=
  {| filesInfo := []; errorOccurred := false; successCount := 0; failCount := 0 |}.

(** What the transfer loop, started with variables [v], leaves in [v']
    after making the calls [t] over the entries [files]. *)
Definition loopFacts (configuration : UploadConfiguration) (files : list spec.File)
    (v v' : LoopVars) (t : list Event) : Prop :=
  filesInfo v' = filesInfo v ++ collected t
  /\ (minInt64 <= successCount v <= maxInt64 ->
      successCount v' = wrap64 (successCount v + sumUploaded t))
  /\ (minInt64 <= failCount v <= maxInt64 ->
      failCount v' = wrap64 (failCount v + sumFailed t))
  /\ errorOccurred v' =
     errorOccurred v || existsb (paramsFail configuration) files || existsb clientFailed t
  /\ Forall (fun ev => isClientCall ev || isLog ev = true) t.

(** The populate function [Upload] hands to the build-info store. *)
Definition populateWith (buildArtifacts : list Artifact) : Partial -> Partial :=
  fun partial => buildinfo.setArtifacts partial buildArtifacts.

(** How many calls of a kind a run made. *)
Definition countCalls (kind : Event -> bool) (tr : list Event) : nat :=
  length (List.filter kind tr).

(** What an optional boolean override resolves to when it is absent or
    parses. *)
Definition resolved (raw : string) (defaultValue : bool) : bool :=
  if String.eqb raw "" then defaultValue else fst (ParseBool raw).

(** The parameters of an entry whose overrides all resolve. *)
Definition resolvedParams (f : spec.File) (configuration : UploadConfiguration)
  : services.UploadParams :=
  {| services.Common := services.ToArtifactoryCommonParams f;
     services.Recursive := resolved (spec.Recursive f) true;
     services.Regexp := resolved (spec.Regexp f) false;
     services.IncludeDirs := resolved (spec.IncludeDirs f) false;
     services.Flat := resolved (spec.Flat f) true;
     services.ExplodeArchive := resolved (spec.Explode f) false;
     services.Deb := Deb configuration;
     services.Symlink := Symlink configuration;
     services.Retries := Retries configuration |}.

(** The builder [createUploadServiceConfig] hands to [Build]. *)
Definition builderOf (artAuth : ArtAuth) (flags : UploadConfiguration)
    (certPath : string) (minChecksumDeploySize : Z) : artifactory.ConfigBuilder ArtAuth :=
  {| artifactory.ArtDetails := artAuth;
     artifactory.DryRun := DryRun flags;
     artifactory.CertificatesPath := certPath;
     artifactory.MinChecksumDeploy := minChecksumDeploySize;
     artifactory.Threads := Threads flags |}.

End Observations.

(** ** A concrete set of collaborators

    A scripted outside world on which the code can be run: the client
    answers by the entry's pattern, and switches say which of the other
    collaborators fail. *)
Module Demo.

Record DemoWorld : Type := {
  env : gmap string string;
  securityDirOk : bool;
  generalDetailsOk : bool;
  formatterOk : bool;
  commitOk : bool;
  clientCalls : nat;
}.

Definition afterClientCall (w : DemoWorld) : DemoWorld :=
  {| env := env w; securityDirOk := securityDirOk w;
     generalDetailsOk := generalDetailsOk w; formatterOk := formatterOk w;
     commitOk := commitOk w; clientCalls := S (clientCalls w) |}.

Definition answer (ok : bool) (msg : string) : option error :=
  if ok then None else Some (ErrorString msg).

Definition demoUploadFiles (params : services.UploadParams)
  : list string * Z * Z * option error :=
  let pattern := services.Pattern (services.Common params) in
  if String.eqb pattern "a/*" then (["repo/a1"; "repo/a2"; "repo/a3"]%string, 3, 0, None)
  else if String.eqb pattern "b/*" then (["repo/b1"; "repo/b2"]%string, 2, 1, None)
  else if String.eqb pattern "down/*" then ([], 0, 0, Some (ErrorString "connection refused"))
  else ([], 0, 0, None).

Definition demo : Collaborators := {|
  World := DemoWorld;
  FileInfo := string;
  Artifact := string;
  zeroArtifact := ""%string;
  ToBuildArtifacts := fun path => ("artifact:" +:+ path)%string;
  PartialRest := unit;
  ArtifactoryDetails := unit;
  ArtAuth := unit;
  Config := unit;
  nilConfig := tt;
  ServicesManager := unit;
  environ := env;
  GetJfrogSecurityDir := fun w =>
    (("/home/user/.jfrog/security"%string, answer (securityDirOk w) "no home directory"), w);
  CreateArtAuthConfig := fun _ w => ((tt, None), w);
  Build := fun _ w => ((tt, None), w);
  New := fun _ w => ((tt, None), w);
  SaveBuildGeneralDetails := fun _ _ w =>
    (answer (generalDetailsOk w) "cannot write build details", w);
  CreateBuildProperties := fun name number w =>
    if formatterOk w
    then ((("build.name=" +:+ name +:+ ";build.number=" +:+ number)%string, None), w)
    else ((""%string, Some (ErrorString "cannot read build details")), w);
  UploadFiles := fun _ params w => (demoUploadFiles params, afterClientCall w);
  SavePartialBuildInfo := fun _ _ _ w =>
    (answer (commitOk w) "cannot write partial build info", w);
|}.

Definition world (environ : gmap string string) : DemoWorld :=
  {| env := environ; securityDirOk := true; generalDetailsOk := true;
     formatterOk := true; commitOk := true; clientCalls := 0 |}.

Definition entry (pattern props recursive : string) : spec.File :=
  {| spec.Pattern := pattern; spec.Target := "repo/"; spec.Props := props;
     spec.Recursive := recursive; spec.Regexp := ""; spec.IncludeDirs := "";
     spec.Flat := ""; spec.Explode := "" |}.

Definition config (buildName buildNumber : string) (dryRun : bool)
  : @UploadConfiguration demo :=
  {| Deb := ""; Threads := 3; MinChecksumDeploySize := 10240;
     BuildName := buildName; BuildNumber := buildNumber; DryRun := dryRun;
     Symlink := false; ExplodeArchive := false;
     ArtDetails := (tt : @ArtifactoryDetails demo); Retries := 3 |}.

Definition sizeKB : string := "JFROG_CLI_MIN_CHECKSUM_DEPLOY_SIZE_KB".

(** Entry A transfers 3 of 3 files, entry B 2 of 3; entry C carries an
    override that is no boolean. *)
Definition entryA : spec.File := entry "a/*" "a=1" "".
Definition entryB : spec.File := entry "b/*" "" "true".
Definition entryC : spec.File := entry "c/*" "" "maybe".

Definition specA : spec.SpecFiles := {| spec.Files := [entryA] |}.
Definition specAB : spec.SpecFiles := {| spec.Files := [entryA; entryB] |}.
Definition specACB : spec.SpecFiles := {| spec.Files := [entryA; entryC; entryB] |}.

(** A world whose property formatter fails. *)
Definition brokenFormatter : DemoWorld :=
  {| env := ∅; securityDirOk := true; generalDetailsOk := true;
     formatterOk := false; commitOk := true; clientCalls := 0 |}.

(** A world whose security directory cannot be found. *)
Definition noSecurityDir : DemoWorld :=
  {| env := ∅; securityDirOk := false; generalDetailsOk := true;
     formatterOk := true; commitOk := true; clientCalls := 0 |}.

(** A malformed size override; a store that refuses the commit; a store
    that refuses the general details. *)
Definition badSizeOverride : DemoWorld := world {[ sizeKB := "ten"%string ]}.

Definition commitRefused : DemoWorld :=
  {| env := ∅; securityDirOk := true; generalDetailsOk := true;
     formatterOk := true; commitOk := false; clientCalls := 0 |}.

Definition generalDetailsRefused : DemoWorld :=
  {| env := ∅; securityDirOk := true; generalDetailsOk := false;
     formatterOk := true; commitOk := true; clientCalls := 0 |}.

(** A configuration that differs from [config] in every field
    [getUploadParams] does not read. *)
Definition otherConfig (buildName buildNumber : string) (dryRun : bool)
  : @UploadConfiguration demo :=
  {| Deb := ""; Threads := 8; MinChecksumDeploySize := 0;
     BuildName := buildName; BuildNumber := buildNumber; DryRun := dryRun;
     Symlink := false; ExplodeArchive := true;
     ArtDetails := (tt : @ArtifactoryDetails demo); Retries := 3 |}.

End Demo.

(** ** Properties *)

(** *** Integers and strings of Go *)

Lemma wrap64_range (z : Z) : minInt64 <= wrap64 z <= maxInt64.
Proof.
  unfold wrap64, minInt64, maxInt64.
  pose proof (Z.mod_pos_bound (z + 2 ^ 63) (2 ^ 64) ltac:(lia)). lia.
Qed.

Lemma wrap64_id (z : Z) : minInt64 <= z <= maxInt64 -> wrap64 z = z.
Proof.
  unfold wrap64, minInt64, maxInt64. intros Hz.
  rewrite Z.mod_small by lia. lia.
Qed.

Lemma wrap64_add_l (a b : Z) : wrap64 (wrap64 a + b) = wrap64 (a + b).
Proof.
  unfold wrap64.
  replace ((a + 2 ^ 63) mod 2 ^ 64 - 2 ^ 63 + b + 2 ^ 63)
    with ((a + 2 ^ 63) mod 2 ^ 64 + b) by lia.
  rewrite Zplus_mod_idemp_l. f_equal. f_equal. lia.
Qed.

Lemma string_app_cons (c : ascii) (s t : string) :
  (String c s +:+ t = String c (s +:+ t))%string.
Proof. reflexivity. Qed.

Lemma string_app_nil_r (s : string) : (s +:+ "")%string = s.
Proof.
  induction s as [|c s IH]; [reflexivity |].
  rewrite string_app_cons, IH. reflexivity.
Qed.

Lemma string_app_assoc (a b c : string) :
  ((a +:+ b) +:+ c = a +:+ (b +:+ c))%string.
Proof.
  induction a as [|x a IH]; [reflexivity |].
  rewrite !string_app_cons, IH. reflexivity.
Qed.

(** [strings.HasSuffix s ";"] holds exactly of the strings that end with
    a semicolon. *)
Lemma HasSuffix_semicolon (s : string) :
  HasSuffix s ";" = true <-> exists q, s = (q +:+ ";")%string.
Proof.
  unfold HasSuffix. simpl String.length.
  induction s as [|c s IH].
  - simpl. split; [discriminate | intros [[|] Hq]; discriminate].
  - destruct s as [|c' s'].
    + simpl. split.
      * intros Heq. exists ""%string.
        destruct (Ascii.eqb_spec c ";"); [now subst | discriminate].
      * intros [[|x q] Hq].
        -- injection Hq as ->. reflexivity.
        -- rewrite string_app_cons in Hq. injection Hq as -> Hq.
           destruct q; discriminate.
    + replace (String.length (String c (String c' s')) - 1)%nat
        with (S (String.length (String c' s') - 1))%nat by (simpl; lia).
      change (1 <=? String.length (String c (String c' s')))%nat with true.
      change (1 <=? String.length (String c' s'))%nat with true in IH.
      cbn [String.substring andb] in *.
      rewrite IH. split.
      * intros [q ->]. exists (String c q). reflexivity.
      * intros [[|x q] Hq].
        -- discriminate.
        -- rewrite string_app_cons in Hq. injection Hq as -> Hq.
           exists q. exact Hq.
Qed.

Example ParseInt_decimal :
  ParseInt "123" 10 64 = (123, None)
  /\ ParseInt "-5" 10 64 = (-5, None)
  /\ ParseInt "+7" 10 64 = (7, None)
  /\ ParseInt "-9223372036854775808" 10 64 = (-9223372036854775808, None).
Proof. vm_compute. repeat split. Qed.

Example ParseInt_rejects :
  ParseInt "12a" 10 64 = (0, Some (NumError "ParseInt" "12a" ErrSyntax))
  /\ ParseInt "1_2" 10 64 = (0, Some (NumError "ParseInt" "1_2" ErrSyntax))
  /\ ParseInt "+" 10 64 = (0, Some (NumError "ParseInt" "+" ErrSyntax))
  /\ ParseInt "9223372036854775808" 10 64
     = (9223372036854775807, Some (NumError "ParseInt" "9223372036854775808" ErrRange)).
Proof. vm_compute. repeat split. Qed.

Example ParseBool_values :
  ParseBool "true" = (true, None)
  /\ ParseBool "F" = (false, None)
  /\ ParseBool "maybe" = (false, Some (NumError "ParseBool" "maybe" ErrSyntax)).
Proof. vm_compute. repeat split. Qed.

Example HasSuffix_values :
  HasSuffix "a=1;" ";" = true /\ HasSuffix "a=1" ";" = false /\ HasSuffix "" ";" = false.
Proof. vm_compute. repeat split. Qed.

(** *** The minimum checksum-deploy size *)

Lemma ParseInt_empty (base bitSize v : Z) : ParseInt "" base bitSize <> (v, None).
Proof. simpl. discriminate. Qed.

Lemma getMinChecksumDeploySize_unset (environ : gmap string string) :
  Getenv environ "JFROG_CLI_MIN_CHECKSUM_DEPLOY_SIZE_KB" = ""%string ->
  getMinChecksumDeploySize environ = (10240, None).
Proof. unfold getMinChecksumDeploySize. intros ->. reflexivity. Qed.

Lemma getMinChecksumDeploySize_parsed (environ : gmap string string) (v : Z) :
  ParseInt (Getenv environ "JFROG_CLI_MIN_CHECKSUM_DEPLOY_SIZE_KB") 10 64 = (v, None) ->
  getMinChecksumDeploySize environ = (wrap64 (v * 1000), None).
Proof.
  unfold getMinChecksumDeploySize. intros Hparse.
  destruct (String.eqb_spec (Getenv environ "JFROG_CLI_MIN_CHECKSUM_DEPLOY_SIZE_KB") "")
    as [Heq | _].
  - rewrite Heq in Hparse. now apply ParseInt_empty in Hparse.
  - rewrite Hparse. reflexivity.
Qed.

Lemma getMinChecksumDeploySize_cases (environ : gmap string string) (size : Z) :
  getMinChecksumDeploySize environ = (size, None) ->
  (Getenv environ "JFROG_CLI_MIN_CHECKSUM_DEPLOY_SIZE_KB" = ""%string /\ size = 10240)
  \/ exists v,
       ParseInt (Getenv environ "JFROG_CLI_MIN_CHECKSUM_DEPLOY_SIZE_KB") 10 64 = (v, None)
       /\ size = wrap64 (v * 1000).
Proof.
  unfold getMinChecksumDeploySize.
  destruct (String.eqb_spec (Getenv environ "JFROG_CLI_MIN_CHECKSUM_DEPLOY_SIZE_KB") "")
    as [Heq | _].
  - intros [= <-]. now left.
  - destruct (ParseInt _ 10 64) as [v [e|]]; simpl; [discriminate |].
    intros [= <-]. right. now exists v.
Qed.

(** C1, as the code has it: with the variable unset (empty)
    [getMinChecksumDeploySize] returns 10240 and no error; with a value
    that [strconv.ParseInt] reads as [v] it returns [v * 1000] reduced to
    int64 and no error, which is [v * 1000] itself whenever that fits in
    an int64. *)
Theorem getMinChecksumDeploySize_resolves (environ : gmap string string) :
  (Getenv environ "JFROG_CLI_MIN_CHECKSUM_DEPLOY_SIZE_KB" = ""%string ->
   getMinChecksumDeploySize environ = (10240, None))
  /\ (forall v : Z,
        ParseInt (Getenv environ "JFROG_CLI_MIN_CHECKSUM_DEPLOY_SIZE_KB") 10 64 = (v, None) ->
        getMinChecksumDeploySize environ = (wrap64 (v * 1000), None)
        /\ (minInt64 <= v * 1000 <= maxInt64 ->
            getMinChecksumDeploySize environ = (v * 1000, None))).
Proof.
  split; [apply getMinChecksumDeploySize_unset |].
  intros v Hparse. split; [now apply getMinChecksumDeploySize_parsed |].
  intros Hfit. rewrite (getMinChecksumDeploySize_parsed _ _ Hparse).
  now rewrite wrap64_id.
Qed.

(** The override "5" resolves to 5000 bytes. *)
Lemma getMinChecksumDeploySize_resolves_witness :
  getMinChecksumDeploySize {[ Demo.sizeKB := "5"%string ]} = (5000, None).
Proof.
  refine (proj2 (proj2 (getMinChecksumDeploySize_resolves
                          {[ Demo.sizeKB := "5"%string ]}) 5 _) _).
  - vm_compute. reflexivity.
  - unfold minInt64, maxInt64. lia.
Defined.

(** C1 as stated fails twice: the default is 10240, not 10240000, and the
    largest int64 override wraps around instead of yielding [v * 1000]. *)
Lemma getMinChecksumDeploySize_default_and_wrap :
  Getenv ∅ Demo.sizeKB = ""%string
  /\ getMinChecksumDeploySize ∅ = (10240, None)
  /\ getMinChecksumDeploySize ∅ <> (10240000, None)
  /\ ParseInt (Getenv {[ Demo.sizeKB := "9223372036854775807"%string ]} Demo.sizeKB) 10 64
     = (9223372036854775807, None)
  /\ getMinChecksumDeploySize {[ Demo.sizeKB := "9223372036854775807"%string ]}
     = (-1000, None)
  /\ getMinChecksumDeploySize {[ Demo.sizeKB := "9223372036854775807"%string ]}
     <> (9223372036854775807 * 1000, None).
Proof. vm_compute. repeat split; discriminate. Qed.

(** C8, as the code has it: a size resolved without error is an int64; it
    is 10240 when the variable is unset, and with an override read as [v]
    whose product [v * 1000] fits in an int64 it is non-negative exactly
    when [v] is. *)
Theorem getMinChecksumDeploySize_sign (environ : gmap string string) (size : Z) :
  getMinChecksumDeploySize environ = (size, None) ->
  minInt64 <= size <= maxInt64
  /\ (Getenv environ "JFROG_CLI_MIN_CHECKSUM_DEPLOY_SIZE_KB" = ""%string -> 0 <= size)
  /\ (forall v : Z,
        ParseInt (Getenv environ "JFROG_CLI_MIN_CHECKSUM_DEPLOY_SIZE_KB") 10 64 = (v, None) ->
        minInt64 <= v * 1000 <= maxInt64 ->
        (0 <= size <-> 0 <= v)).
Proof.
  intros Hres. split; [| split].
  - destruct (getMinChecksumDeploySize_cases _ _ Hres) as [[_ ->] | (v & _ & ->)].
    + unfold minInt64, maxInt64. lia.
    + apply wrap64_range.
  - intros Hunset. rewrite (getMinChecksumDeploySize_unset _ Hunset) in Hres.
    injection Hres as <-. lia.
  - intros v Hparse Hfit.
    rewrite (getMinChecksumDeploySize_parsed _ _ Hparse) in Hres.
    injection Hres as <-. rewrite wrap64_id by exact Hfit. lia.
Qed.

(** The override "5": 5000 is non-negative, as 5 is. *)
Lemma getMinChecksumDeploySize_sign_witness :
  0 <= 5000 <-> 0 <= 5.
Proof.
  refine (proj2 (proj2 (getMinChecksumDeploySize_sign
                          {[ Demo.sizeKB := "5"%string ]} 5000 _)) 5 _ _).
  - vm_compute. reflexivity.
  - vm_compute. reflexivity.
  - unfold minInt64, maxInt64. lia.
Defined.

(** C8 as stated fails: the override "-5" parses, and the resolved size is
    -5000, with no error. *)
Lemma getMinChecksumDeploySize_negative :
  ParseInt (Getenv {[ Demo.sizeKB := "-5"%string ]} Demo.sizeKB) 10 64 = (-5, None)
  /\ getMinChecksumDeploySize {[ Demo.sizeKB := "-5"%string ]} = (-5000, None)
  /\ ~ 0 <= -5000.
Proof. split; [| split]; [vm_compute; reflexivity .. | lia]. Qed.

(** *** The Build Property Injector *)

Section Injector.
Context `{Collaborators}.

Lemma nonempty_length (s : string) : s <> ""%string -> (0 <? String.length s)%nat = true.
Proof. destruct s; [congruence | reflexivity]. Qed.

Lemma HasSuffix_separator_false (s : string) :
  ~ endsWithSeparator s -> HasSuffix s ";" = false.
Proof.
  intros Hno. destruct (HasSuffix s ";") eqn:Hs; [| reflexivity].
  exfalso. apply Hno. now apply HasSuffix_semicolon.
Qed.

Lemma addBuildProps_noop (props buildName buildNumber : string) (w : World) :
  buildName = ""%string \/ buildNumber = ""%string ->
  addBuildProps props buildName buildNumber w = ((props, None), w, []).
Proof.
  unfold addBuildProps. intros [-> | ->]; [reflexivity |].
  rewrite orb_true_r. reflexivity.
Qed.

Lemma addBuildProps_call (props buildName buildNumber : string) (w : World) :
  buildName <> ""%string -> buildNumber <> ""%string ->
  addBuildProps props buildName buildNumber w =
  (let* (buildProps, err) :=
     call (CreateBuildProperties buildName buildNumber)
          (EvCreateBuildProperties buildName buildNumber) in
   match err with
   | Some e => ret (props, Some e)
   | None =>
     let props :=
       if (0 <? String.length props)%nat && negb (HasSuffix props ";")
          && (0 <? String.length buildProps)%nat
       then (props +:+ ";")%string else props in
     ret ((props +:+ buildProps)%string, None)
   end) w.
Proof.
  unfold addBuildProps. intros Hname Hnumber.
  apply String.eqb_neq in Hname, Hnumber. rewrite Hname, Hnumber. reflexivity.
Qed.

(** C6: with build name and number both non-empty and a non-empty fragment
    [f] from the formatter, [addBuildProps] leaves [p + ";" + f] behind
    when [p] is non-empty and does not end with [";"], and [p + f]
    otherwise; with an empty build name or number the string is unchanged,
    no error is returned and the formatter is not called. *)
Theorem addBuildProps_appends (p buildName buildNumber : string) (w : World) :
  (buildName = ""%string \/ buildNumber = ""%string ->
   addBuildProps p buildName buildNumber w = ((p, None), w, []))
  /\ (buildName <> ""%string -> buildNumber <> ""%string ->
      forall (f : string) (w' : World),
        CreateBuildProperties buildName buildNumber w = ((f, None), w') ->
        f <> ""%string ->
        (p <> ""%string -> ~ endsWithSeparator p ->
         addBuildProps p buildName buildNumber w =
         (((p +:+ ";" +:+ f)%string, None), w',
          [EvCreateBuildProperties buildName buildNumber (f, None)]))
        /\ (p = ""%string \/ endsWithSeparator p ->
            addBuildProps p buildName buildNumber w =
            (((p +:+ f)%string, None), w',
             [EvCreateBuildProperties buildName buildNumber (f, None)]))).
Proof.
  split; [apply addBuildProps_noop |].
  intros Hname Hnumber f w' Hfmt Hf.
  rewrite addBuildProps_call by assumption.
  unfold bind, call, ret. rewrite Hfmt. cbn [app].
  rewrite (nonempty_length f Hf), andb_true_r.
  split.
  - intros Hp Hsep.
    rewrite (nonempty_length p Hp), (HasSuffix_separator_false p Hsep).
    cbn [negb andb]. now rewrite string_app_assoc.
  - intros [-> | Hsep]; [reflexivity |].
    apply HasSuffix_semicolon in Hsep. rewrite Hsep.
    cbn [negb]. now rewrite andb_false_r.
Qed.

(** C7: when the formatter fails, [addBuildProps] returns the formatter's
    error and the property string is what it was. *)
Theorem addBuildProps_formatter_error
    (p buildName buildNumber f : string) (e : error) (w w' : World) :
  buildName <> ""%string -> buildNumber <> ""%string ->
  CreateBuildProperties buildName buildNumber w = ((f, Some e), w') ->
  addBuildProps p buildName buildNumber w =
  ((p, Some e), w', [EvCreateBuildProperties buildName buildNumber (f, Some e)]).
Proof.
  intros Hname Hnumber Hfmt.
  rewrite addBuildProps_call by assumption.
  unfold bind, call, ret. rewrite Hfmt. reflexivity.
Qed.

End Injector.

(** With the formatter's fragment "build.name=x;build.number=1", "a=1"
    becomes "a=1;build.name=x;build.number=1". *)
Lemma addBuildProps_appends_witness :
  @addBuildProps Demo.demo "a=1" "x" "1" (Demo.world ∅) =
  (("a=1;build.name=x;build.number=1"%string, None), Demo.world ∅,
   [@EvCreateBuildProperties Demo.demo "x" "1"
      ("build.name=x;build.number=1"%string, None)]).
Proof.
  refine (proj1 (proj2 (@addBuildProps_appends Demo.demo "a=1" "x" "1" (Demo.world ∅))
                   _ _ "build.name=x;build.number=1"%string (Demo.world ∅) _ _) _ _).
  - discriminate.
  - discriminate.
  - reflexivity.
  - discriminate.
  - discriminate.
  - intros Hsep. apply HasSuffix_semicolon in Hsep. vm_compute in Hsep. discriminate.
Defined.

(** A failing formatter: the error comes back and "a=1" stays. *)
Lemma addBuildProps_formatter_error_witness :
  @addBuildProps Demo.demo "a=1" "x" "1"
    {| Demo.env := ∅; Demo.securityDirOk := true; Demo.generalDetailsOk := true;
       Demo.formatterOk := false; Demo.commitOk := true; Demo.clientCalls := 0 |}
  = (("a=1"%string, Some (ErrorString "cannot read build details")),
     {| Demo.env := ∅; Demo.securityDirOk := true; Demo.generalDetailsOk := true;
        Demo.formatterOk := false; Demo.commitOk := true; Demo.clientCalls := 0 |},
     [@EvCreateBuildProperties Demo.demo "x" "1"
        (""%string, Some (ErrorString "cannot read build details"))]).
Proof.
  apply (@addBuildProps_formatter_error Demo.demo).
  - discriminate.
  - discriminate.
  - reflexivity.
Defined.

(** *** Loops *)

Section Loops.
Context `{Collaborators}.

Lemma forEach_app {I V : Type} (l1 l2 : list I) (body : I -> V -> M V) (v : V) (w : World) :
  forEach (l1 ++ l2) body v w =
  (let* v1 := forEach l1 body v in forEach l2 body v1) w.
Proof.
  revert v w. induction l1 as [|i l1 IH]; intros v w.
  - cbn. unfold bind, ret. destruct (forEach l2 body v w) as [[v2 w2] t2]. reflexivity.
  - cbn [forEach app]. unfold bind.
    destruct (body i v w) as [[v1 w1] t1].
    rewrite IH. unfold bind.
    destruct (forEach l1 body v1 w1) as [[v2 w2] t2].
    destruct (forEach l2 body v2 w2) as [[v3 w3] t3].
    now rewrite app_assoc.
Qed.

(** A counting loop that reads the entry at its index is a loop over the
    entries. *)
Lemma forEach_seq_lookup {A V : Type} (pre l : list A) (d : A)
    (body : A -> V -> M V) (v : V) (w : World) :
  forEach (seq (length pre) (length l))
          (fun i => body (default d ((pre ++ l) !! i))) v w
  = forEach l body v w.
Proof.
  revert pre v w. induction l as [|x l IH]; intros pre v w; [reflexivity |].
  cbn [length seq forEach]. unfold bind.
  rewrite list_lookup_middle by reflexivity. cbn [default from_option id].
  destruct (body x v w) as [[v1 w1] t1].
  replace (pre ++ x :: l) with ((pre ++ [x]) ++ l) by now rewrite <- app_assoc.
  replace (S (length pre)) with (length (pre ++ [x])) by (rewrite length_app; simpl; lia).
  now rewrite IH.
Qed.

Lemma rangeFrom_insert {A B : Type} (g : A -> B) (z : B) (pre : list B) (l : list A) :
  rangeFrom (length pre) l (fun i x acc => <[i := g x]> acc)
            (pre ++ replicate (length l) z)
  = pre ++ map g l.
Proof.
  revert pre. induction l as [|x l IH]; intros pre; [reflexivity |].
  cbn [rangeFrom length replicate map].
  rewrite insert_app_r_alt by lia. rewrite Nat.sub_diag. cbn [insert list_insert].
  replace (pre ++ g x :: replicate (length l) z)
    with ((pre ++ [g x]) ++ replicate (length l) z) by now rewrite <- app_assoc.
  replace (S (length pre)) with (length (pre ++ [g x])) by (rewrite length_app; simpl; lia).
  rewrite IH. now rewrite <- app_assoc.
Qed.

Lemma convertFileInfoToBuildArtifacts_map (filesInfo : list FileInfo) :
  convertFileInfoToBuildArtifacts filesInfo = map ToBuildArtifacts filesInfo.
Proof.
  unfold convertFileInfoToBuildArtifacts.
  exact (rangeFrom_insert ToBuildArtifacts zeroArtifact [] filesInfo).
Qed.

End Loops.

Section LoopFacts.
Context `{Collaborators}.

Lemma uploadEntry_file (servicesManager : ServicesManager) (uploadSpec : spec.SpecFiles)
    (configuration : UploadConfiguration) (i : nat) (v : LoopVars) :
  uploadEntry servicesManager uploadSpec configuration i v
  = uploadFile servicesManager configuration (spec.Get uploadSpec i) v.
Proof. reflexivity. Qed.

Lemma uploadLoop_forEach (servicesManager : ServicesManager) (uploadSpec : spec.SpecFiles)
    (configuration : UploadConfiguration) (w : World) :
  uploadLoop servicesManager uploadSpec configuration w
  = forEach (spec.Files uploadSpec) (uploadFile servicesManager configuration) initialVars w.
Proof.
  unfold uploadLoop, forRange.
  exact (forEach_seq_lookup [] (spec.Files uploadSpec) spec.zeroFile
           (uploadFile servicesManager configuration) initialVars w).
Qed.

Lemma forRange_addBuildPropsAt (configuration : UploadConfiguration)
    (pre l : list spec.File) (w : World) :
  forEach (seq (length pre) (length l)) (addBuildPropsAt configuration)
          {| spec.Files := pre ++ l |} w
  = (let* l' := injectAll configuration l in ret {| spec.Files := pre ++ l' |}) w.
Proof.
  revert pre w. induction l as [|f l IH]; intros pre w.
  - cbn. now rewrite !app_nil_r.
  - cbn [length seq forEach injectAll]. unfold addBuildPropsAt at 1, spec.Get.
    cbn [spec.Files]. rewrite list_lookup_middle by reflexivity.
    cbn [default from_option id]. unfold bind.
    destruct (addBuildProps _ _ _ w) as [[[props e] w1] t1]. cbn [ret].
    rewrite insert_app_r_alt by lia. rewrite Nat.sub_diag. cbn [insert list_insert].
    replace (pre ++ spec.setProps f props :: l)
      with ((pre ++ [spec.setProps f props]) ++ l) by now rewrite <- app_assoc.
    replace (S (length pre)) with (length (pre ++ [spec.setProps f props]))
      by (rewrite length_app; simpl; lia).
    rewrite IH. unfold bind, ret.
    destruct (injectAll configuration l w1) as [[l' w2] t2].
    rewrite <- app_assoc. cbn. now rewrite !app_nil_r.
Qed.

End LoopFacts.

Section TransferLoop.
Context `{Collaborators}.

Lemma sumUploaded_app (t1 t2 : list Event) :
  sumUploaded (t1 ++ t2) = sumUploaded t1 + sumUploaded t2.
Proof. unfold sumUploaded. induction t1 as [|ev t1 IH]; simpl; lia. Qed.

Lemma sumFailed_app (t1 t2 : list Event) :
  sumFailed (t1 ++ t2) = sumFailed t1 + sumFailed t2.
Proof. unfold sumFailed. induction t1 as [|ev t1 IH]; simpl; lia. Qed.

Lemma collected_app (t1 t2 : list Event) :
  collected (t1 ++ t2) = collected t1 ++ collected t2.
Proof. unfold collected. now rewrite map_app, concat_app. Qed.

Lemma clientCalls_app (t1 t2 : list Event) :
  clientCalls (t1 ++ t2) = clientCalls t1 ++ clientCalls t2.
Proof. unfold clientCalls. apply filter_app. Qed.

Lemma uploadFile_fail (servicesManager : ServicesManager)
    (configuration : UploadConfiguration) (f : spec.File) (v : LoopVars) (w : World)
    (p : services.UploadParams) (e : error) :
  getUploadParams f configuration = (p, Some e) ->
  uploadFile servicesManager configuration f v w = (setErrorOccurred v, w, [EvLogError e]).
Proof.
  intros Hp. unfold uploadFile, uploadEntry, spec.Get.
  cbn [spec.Files lookup list_lookup default from_option id]. rewrite Hp. reflexivity.
Qed.

Lemma uploadFile_ok (servicesManager : ServicesManager)
    (configuration : UploadConfiguration) (f : spec.File) (v : LoopVars) (w w1 : World)
    (p : services.UploadParams) (artifacts : list FileInfo) (uploaded failed : Z)
    (err : option error) :
  getUploadParams f configuration = (p, None) ->
  UploadFiles servicesManager p w = ((artifacts, uploaded, failed, err), w1) ->
  uploadFile servicesManager configuration f v w =
  ({| filesInfo := filesInfo v ++ artifacts;
      errorOccurred := errorOccurred v || bool_decide (err <> None);
      successCount := add64 (successCount v) uploaded;
      failCount := add64 (failCount v) failed |},
   w1,
   EvUploadFiles p (artifacts, uploaded, failed, err)
   :: match err with Some e => [EvLogError e] | None => [] end).
Proof.
  intros Hp Hcall. unfold uploadFile, uploadEntry, spec.Get.
  cbn [spec.Files lookup list_lookup default from_option id]. rewrite Hp.
  unfold bind, call, log_Error, ret. rewrite Hcall.
  destruct err as [e|]; cbn.
  - unfold setErrorOccurred. cbn. now rewrite orb_true_r.
  - now rewrite orb_false_r.
Qed.

Lemma loopFacts_nil (configuration : UploadConfiguration) (v : LoopVars) :
  loopFacts configuration [] v v [].
Proof.
  unfold loopFacts. cbn. rewrite app_nil_r, !orb_false_r, !Z.add_0_r.
  repeat split; try constructor; intros; now rewrite wrap64_id.
Qed.

Lemma loopFacts_app (configuration : UploadConfiguration) (fs1 fs2 : list spec.File)
    (v v1 v2 : LoopVars) (t1 t2 : list Event) :
  loopFacts configuration fs1 v v1 t1 ->
  loopFacts configuration fs2 v1 v2 t2 ->
  loopFacts configuration (fs1 ++ fs2) v v2 (t1 ++ t2).
Proof.
  intros (Ha1 & Hs1 & Hf1 & He1 & Hk1) (Ha2 & Hs2 & Hf2 & He2 & Hk2).
  unfold loopFacts. repeat split.
  - rewrite Ha2, Ha1, collected_app. now rewrite app_assoc.
  - intros Hr. specialize (Hs1 Hr). rewrite Hs2, Hs1.
    + rewrite wrap64_add_l, sumUploaded_app. f_equal. lia.
    + rewrite Hs1. apply wrap64_range.
  - intros Hr. specialize (Hf1 Hr). rewrite Hf2, Hf1.
    + rewrite wrap64_add_l, sumFailed_app. f_equal. lia.
    + rewrite Hf1. apply wrap64_range.
  - rewrite He2, He1, !existsb_app.
    destruct (errorOccurred v), (existsb (paramsFail configuration) fs1),
      (existsb clientFailed t1), (existsb (paramsFail configuration) fs2); reflexivity.
  - now apply Forall_app.
Qed.

Lemma uploadFile_facts (servicesManager : ServicesManager)
    (configuration : UploadConfiguration) (f : spec.File) (v v' : LoopVars)
    (w w' : World) (t : list Event) :
  uploadFile servicesManager configuration f v w = (v', w', t) ->
  loopFacts configuration [f] v v' t.
Proof.
  intros Hrun. unfold loopFacts, paramsFail. cbn [existsb].
  destruct (getUploadParams f configuration) as [p [e|]] eqn:Hp.
  - rewrite (uploadFile_fail _ _ _ _ _ _ _ Hp) in Hrun. injection Hrun as <- <- <-.
    cbn. rewrite app_nil_r, !Z.add_0_r, !orb_true_r.
    repeat split; try (intros; now rewrite wrap64_id).
    repeat constructor.
  - destruct (UploadFiles servicesManager p w) as [[[[a u] fl] err] w1] eqn:Hcall.
    rewrite (uploadFile_ok _ _ _ _ _ _ _ _ _ _ _ Hp Hcall) in Hrun.
    injection Hrun as <- <- <-. cbn [snd filesInfo successCount failCount errorOccurred].
    destruct err as [e|]; cbn; rewrite ?app_nil_r, ?Z.add_0_r, ?orb_false_r, ?orb_true_r;
      repeat split; try reflexivity; repeat constructor.
Qed.

Lemma forEach_uploadFile_facts (servicesManager : ServicesManager)
    (configuration : UploadConfiguration) (files : list spec.File) (v v' : LoopVars)
    (w w' : World) (t : list Event) :
  forEach files (uploadFile servicesManager configuration) v w = (v', w', t) ->
  loopFacts configuration files v v' t.
Proof.
  revert v w v' w' t. induction files as [|f files IH]; intros v w v' w' t Hrun.
  - injection Hrun as <- <- <-. apply loopFacts_nil.
  - cbn [forEach] in Hrun. unfold bind in Hrun.
    destruct (uploadFile servicesManager configuration f v w) as [[v1 w1] t1] eqn:Hstep.
    destruct (forEach files _ v1 w1) as [[v2 w2] t2] eqn:Hrest.
    injection Hrun as <- <- <-.
    change (f :: files) with ([f] ++ files).
    eapply loopFacts_app; [eapply uploadFile_facts | eapply IH]; eassumption.
Qed.

(** The client is called once for each entry whose parameters build, in
    the order of the entries, with those parameters. *)
Lemma forEach_uploadFile_calls (servicesManager : ServicesManager)
    (configuration : UploadConfiguration) (files : list spec.File) (v v' : LoopVars)
    (w w' : World) (t : list Event) :
  forEach files (uploadFile servicesManager configuration) v w = (v', w', t) ->
  callParams t = omap (okParams configuration) files.
Proof.
  revert v w v' w' t. induction files as [|f files IH]; intros v w v' w' t Hrun.
  - now injection Hrun as <- <- <-.
  - cbn [forEach] in Hrun. unfold bind in Hrun.
    destruct (uploadFile servicesManager configuration f v w) as [[v1 w1] t1] eqn:Hstep.
    destruct (forEach files _ v1 w1) as [[v2 w2] t2] eqn:Hrest.
    injection Hrun as <- <- <-. unfold callParams in *.
    rewrite omap_app, (IH _ _ _ _ _ Hrest). cbn [omap list_omap]. unfold okParams at 2.
    destruct (getUploadParams f configuration) as [p [e|]] eqn:Hp.
    + rewrite (uploadFile_fail _ _ _ _ _ _ _ Hp) in Hstep. now injection Hstep as <- <- <-.
    + destruct (UploadFiles servicesManager p w) as [[[[a u] fl] err] w0] eqn:Hcall.
      rewrite (uploadFile_ok _ _ _ _ _ _ _ _ _ _ _ Hp Hcall) in Hstep.
      injection Hstep as <- <- <-. now destruct err.
Qed.

End TransferLoop.

Section Preflight.
Context `{Collaborators}.

(** The five overrides decide whether the parameters can be built; the
    property string has no part in it. *)
Lemma paramsFail_setProps (configuration : UploadConfiguration) (f : spec.File)
    (props : string) :
  paramsFail configuration (spec.setProps f props) = paramsFail configuration f.
Proof.
  unfold paramsFail, getUploadParams, spec.IsRecursive, spec.IsRegexp,
    spec.IsIncludeDirs, spec.IsFlat, spec.IsExplode.
  cbn [spec.setProps spec.Recursive spec.Regexp spec.IncludeDirs spec.Flat spec.Explode].
  destruct (spec.getOrDefault (spec.Recursive f) true) as [b1 [e1|]]; [reflexivity |].
  destruct (spec.getOrDefault (spec.Regexp f) false) as [b2 [e2|]]; [reflexivity |].
  destruct (spec.getOrDefault (spec.IncludeDirs f) false) as [b3 [e3|]]; [reflexivity |].
  destruct (spec.getOrDefault (spec.Flat f) true) as [b4 [e4|]]; [reflexivity |].
  destruct (spec.getOrDefault (spec.Explode f) false) as [b5 [e5|]]; reflexivity.
Qed.

Lemma getOrDefault_bad (raw : string) (defaultValue : bool) :
  badOverride raw -> exists b e, spec.getOrDefault raw defaultValue = (b, Some e).
Proof.
  intros [Hraw Hparse]. unfold spec.getOrDefault.
  apply String.eqb_neq in Hraw. rewrite Hraw.
  destruct (ParseBool raw) as [b [e|]]; [now exists b, e | now contradiction Hparse].
Qed.

Lemma malformed_paramsFail (configuration : UploadConfiguration) (f : spec.File) :
  malformed f -> paramsFail configuration f = true.
Proof.
  unfold paramsFail, getUploadParams, spec.IsRecursive, spec.IsRegexp,
    spec.IsIncludeDirs, spec.IsFlat, spec.IsExplode.
  intros Hbad.
  destruct (spec.getOrDefault (spec.Recursive f) true) as [b1 [e1|]] eqn:E1; [reflexivity |].
  destruct (spec.getOrDefault (spec.Regexp f) false) as [b2 [e2|]] eqn:E2; [reflexivity |].
  destruct (spec.getOrDefault (spec.IncludeDirs f) false) as [b3 [e3|]] eqn:E3; [reflexivity |].
  destruct (spec.getOrDefault (spec.Flat f) true) as [b4 [e4|]] eqn:E4; [reflexivity |].
  destruct (spec.getOrDefault (spec.Explode f) false) as [b5 [e5|]] eqn:E5; [reflexivity |].
  exfalso.
  destruct Hbad as [Hb | [Hb | [Hb | [Hb | Hb]]]];
    [ destruct (getOrDefault_bad _ true Hb) as (b & e & Hg)
    | destruct (getOrDefault_bad _ false Hb) as (b & e & Hg)
    | destruct (getOrDefault_bad _ false Hb) as (b & e & Hg)
    | destruct (getOrDefault_bad _ true Hb) as (b & e & Hg)
    | destruct (getOrDefault_bad _ false Hb) as (b & e & Hg) ];
    congruence.
Qed.

Lemma injectAll_facts (configuration : UploadConfiguration) (files files' : list spec.File)
    (w w' : World) (t : list Event) :
  injectAll configuration files w = (files', w', t) ->
  Forall2 sameButProps files files'
  /\ Forall (fun ev => isFormatterCall ev = true) t.
Proof.
  revert files' w w' t. induction files as [|f files IH]; intros files' w w' t Hrun.
  - injection Hrun as <- <- <-. split; constructor.
  - cbn [injectAll] in Hrun. unfold bind in Hrun.
    destruct (addBuildProps _ _ _ w) as [[[props e] w1] t1] eqn:Hstep.
    destruct (injectAll configuration files w1) as [[rest' w2] t2] eqn:Hrest.
    cbn [ret] in Hrun. injection Hrun as <- <- <-.
    destruct (IH _ _ _ _ Hrest) as [Hsame Hkind]. split.
    + constructor; [now exists props | exact Hsame].
    + rewrite app_nil_r. apply Forall_app. split; [| exact Hkind].
      unfold addBuildProps in Hstep.
      destruct (String.eqb _ _ || String.eqb _ _).
      * injection Hstep as <- <- <- <-. constructor.
      * unfold bind, call in Hstep.
        destruct (CreateBuildProperties _ _ w) as [[bp [e'|]] w0];
          injection Hstep as <- <- <- <-; repeat constructor.
Qed.

Lemma sameButProps_paramsFail (configuration : UploadConfiguration)
    (files files' : list spec.File) :
  Forall2 sameButProps files files' ->
  existsb (paramsFail configuration) files' = existsb (paramsFail configuration) files.
Proof.
  induction 1 as [|f f' files files' [props ->] _ IH]; [reflexivity |].
  cbn [existsb]. now rewrite paramsFail_setProps, IH.
Qed.

(** "Build Info Collection", case by case. *)
Lemma buildInfoCollection_off (uploadSpec : spec.SpecFiles)
    (configuration : UploadConfiguration) (w : World) :
  isCollectBuildInfo configuration && negb (DryRun configuration) = false ->
  buildInfoCollection uploadSpec configuration w = ((uploadSpec, None), w, []).
Proof. unfold buildInfoCollection. now intros ->. Qed.

Lemma buildInfoCollection_on (uploadSpec : spec.SpecFiles)
    (configuration : UploadConfiguration) (w : World) :
  isCollectBuildInfo configuration && negb (DryRun configuration) = true ->
  buildInfoCollection uploadSpec configuration w =
  (let '(err, w1) :=
     SaveBuildGeneralDetails (BuildName configuration) (BuildNumber configuration) w in
   match err with
   | Some e =>
     ((uploadSpec, Some e), w1,
      [EvSaveBuildGeneralDetails (BuildName configuration) (BuildNumber configuration) err])
   | None =>
     let '(files', w2, t2) := injectAll configuration (spec.Files uploadSpec) w1 in
     (({| spec.Files := files' |}, None), w2,
      EvSaveBuildGeneralDetails (BuildName configuration) (BuildNumber configuration) err :: t2)
   end).
Proof.
  unfold buildInfoCollection. intros ->. unfold bind at 1, call.
  destruct (SaveBuildGeneralDetails _ _ w) as [[e|] w1]; [reflexivity |].
  unfold bind, forRange. destruct uploadSpec as [files].
  pose proof (forRange_addBuildPropsAt configuration [] files w1) as Hloop.
  cbn [app length spec.Files] in Hloop |- *. rewrite Hloop. unfold bind, ret.
  destruct (injectAll configuration files w1) as [[files' w2] t2].
  cbn. now rewrite !app_nil_r.
Qed.

Lemma buildInfoCollection_facts (uploadSpec uploadSpec1 : spec.SpecFiles)
    (configuration : UploadConfiguration) (err : option error) (w w' : World)
    (t : list Event) :
  buildInfoCollection uploadSpec configuration w = ((uploadSpec1, err), w', t) ->
  Forall2 sameButProps (spec.Files uploadSpec) (spec.Files uploadSpec1)
  /\ Forall (fun ev => isGeneralDetails ev || isFormatterCall ev = true) t.
Proof.
  assert (Hrefl : forall l, Forall2 sameButProps l l).
  { induction l as [|f l IH]; constructor; [| exact IH].
    exists (spec.Props f). now destruct f. }
  intros Hrun.
  destruct (isCollectBuildInfo configuration && negb (DryRun configuration)) eqn:Hon.
  - rewrite (buildInfoCollection_on _ _ _ Hon) in Hrun.
    destruct (SaveBuildGeneralDetails _ _ w) as [[e|] w1].
    + injection Hrun as <- <- <- <-. split; [apply Hrefl | repeat constructor].
    + destruct (injectAll configuration (spec.Files uploadSpec) w1)
        as [[files' w2] t2] eqn:Hinj.
      injection Hrun as <- <- <- <-.
      destruct (injectAll_facts _ _ _ _ _ _ Hinj) as [Hsame Hkind].
      split; [exact Hsame |]. constructor; [reflexivity |].
      eapply Forall_impl; [exact Hkind |]. cbn. intros ev ->. apply orb_true_r.
  - rewrite (buildInfoCollection_off _ _ _ Hon) in Hrun.
    injection Hrun as <- <- <- <-. split; [apply Hrefl | constructor].
Qed.

(** "Create Service Manager" makes none of the recorded calls. *)
Lemma createServiceManager_quiet (configuration : UploadConfiguration) (w : World) :
  snd (createServiceManager configuration w) = [].
Proof.
  unfold createServiceManager, createUploadServiceConfig, bind, quiet, os_environ, ret.
  destruct (GetJfrogSecurityDir w) as [[certPath [e|]] w1]; [reflexivity |].
  destruct (getMinChecksumDeploySize (environ w1)) as [size [e|]]; [reflexivity |].
  destruct (CreateArtAuthConfig _ w1) as [[artAuth [e|]] w2]; [reflexivity |].
  destruct (Build _ w2) as [[cfg [e|]] w3]; [reflexivity |].
  destruct (New cfg w3) as [[mgr [e|]] w4]; reflexivity.
Qed.

End Preflight.

Section Phases.
Context `{Collaborators}.

Lemma entersLoop_Some (uploadSpec uploadSpec1 : spec.SpecFiles)
    (configuration : UploadConfiguration) (w w2 : World)
    (servicesManager : ServicesManager) (t12 : list Event) :
  entersLoop uploadSpec configuration w = Some (servicesManager, uploadSpec1, w2, t12) ->
  exists w1 : World,
    createServiceManager configuration w = (inr servicesManager, w1, [])
    /\ buildInfoCollection uploadSpec configuration w1 = ((uploadSpec1, None), w2, t12).
Proof.
  unfold entersLoop. intros Henter.
  pose proof (createServiceManager_quiet configuration w) as Hquiet.
  destruct (createServiceManager configuration w) as [[[e | mgr] w1] t1] eqn:Hinit;
    [discriminate |].
  cbn in Hquiet. subst t1.
  destruct (buildInfoCollection uploadSpec configuration w1) as [[[s1 [e|]] w2'] t2] eqn:Hpre;
    [discriminate |].
  injection Henter as <- <- <- <-. now exists w1.
Qed.

(** Past the two opening blocks, [Upload] is its transfer loop followed by
    the outcome decision and the build-info commit. *)
Lemma Upload_enters (uploadSpec uploadSpec1 : spec.SpecFiles)
    (configuration : UploadConfiguration) (w w2 : World)
    (servicesManager : ServicesManager) (t12 : list Event) :
  entersLoop uploadSpec configuration w = Some (servicesManager, uploadSpec1, w2, t12) ->
  Upload uploadSpec configuration w =
  (let '(v, w3, t3) := uploadLoop servicesManager uploadSpec1 configuration w2 in
   if errorOccurred v then
     ((uploadSpec1, (successCount v, failCount v, Some finishedWithErrors)), w3, t12 ++ t3)
   else if 0 <? failCount v then
     ((uploadSpec1, (successCount v, failCount v, None)), w3, t12 ++ t3)
   else if isCollectBuildInfo configuration && negb (DryRun configuration) then
     let populateFunc := populateWith (convertFileInfoToBuildArtifacts (filesInfo v)) in
     let '(err, w4) :=
       SavePartialBuildInfo (BuildName configuration) (BuildNumber configuration)
                            populateFunc w3 in
     ((uploadSpec1, (successCount v, failCount v, err)), w4,
      t12 ++ t3 ++ [EvSavePartialBuildInfo (BuildName configuration)
                      (BuildNumber configuration) populateFunc err])
   else ((uploadSpec1, (successCount v, failCount v, None)), w3, t12 ++ t3)).
Proof.
  intros Henter. destruct (entersLoop_Some _ _ _ _ _ _ _ Henter) as (w1 & Hinit & Hpre).
  unfold Upload, bind. rewrite Hinit, Hpre.
  destruct (uploadLoop servicesManager uploadSpec1 configuration w2) as [[v w3] t3].
  cbn beta iota. cbn [app]. unfold ret, call.
  destruct (errorOccurred v); [now rewrite app_nil_r |].
  destruct (0 <? failCount v); [now rewrite app_nil_r |].
  destruct (isCollectBuildInfo configuration && negb (DryRun configuration)).
  - unfold populateWith.
    destruct (SavePartialBuildInfo _ _ _ w3) as [err w4]. now rewrite app_nil_r.
  - now rewrite app_nil_r.
Qed.

(** A run stopped in one of the two opening blocks returns zero counts and
    the error, leaves the specification as it was, and has called at most
    the general-details save. *)
Lemma Upload_fatal (uploadSpec : spec.SpecFiles) (configuration : UploadConfiguration)
    (w : World) :
  entersLoop uploadSpec configuration w = None ->
  exists (e : error) (w' : World) (tr : list Event),
    Upload uploadSpec configuration w = ((uploadSpec, (0, 0, Some e)), w', tr)
    /\ Forall (fun ev => isGeneralDetails ev = true) tr.
Proof.
  unfold entersLoop, Upload, bind. intros Henter.
  pose proof (createServiceManager_quiet configuration w) as Hquiet.
  destruct (createServiceManager configuration w) as [[[e | mgr] w1] t1];
    cbn in Hquiet; subst t1.
  - exists e, w1, []. split; [reflexivity | constructor].
  - destruct (isCollectBuildInfo configuration && negb (DryRun configuration)) eqn:Hon.
    + rewrite (buildInfoCollection_on _ _ _ Hon) in Henter |- *.
      destruct (SaveBuildGeneralDetails _ _ w1) as [[e|] w2].
      * exists e, w2, [EvSaveBuildGeneralDetails (BuildName configuration)
                         (BuildNumber configuration) (Some e)].
        split; [reflexivity | repeat constructor].
      * destruct (injectAll configuration (spec.Files uploadSpec) w2) as [[fs w3] t3].
        discriminate.
    + rewrite (buildInfoCollection_off _ _ _ Hon) in Henter. discriminate.
Qed.

(** Readings of calls that are not calls to the client. *)
Lemma preflight_trace_readings (t : list Event) :
  Forall (fun ev => isGeneralDetails ev || isFormatterCall ev = true) t ->
  sumUploaded t = 0 /\ sumFailed t = 0 /\ collected t = [] /\ clientCalls t = []
  /\ existsb clientFailed t = false /\ existsb isCommit t = false.
Proof.
  induction 1 as [|ev t Hev _ (IH1 & IH2 & IH3 & IH4 & IH5 & IH6)].
  - repeat split.
  - unfold sumUploaded, sumFailed, collected, clientCalls in *.
    destruct ev; try discriminate; cbn [foldr map concat existsb uploadedOf failedOf
      artifactsOf clientFailed isCommit app orb];
    rewrite ?IH1, ?IH2, ?IH3, ?IH5, ?IH6; repeat split;
    (rewrite filter_cons_False; [exact IH4 | discriminate]).
Qed.

Lemma loop_trace_readings (t : list Event) :
  Forall (fun ev => isClientCall ev || isLog ev = true) t ->
  existsb isCommit t = false /\ existsb isGeneralDetails t = false
  /\ existsb isFormatterCall t = false.
Proof.
  induction 1 as [|ev t Hev _ (IH1 & IH2 & IH3)]; [repeat split |].
  destruct ev; try discriminate; cbn [existsb isCommit isGeneralDetails isFormatterCall orb];
    now rewrite IH1, IH2, IH3.
Qed.

End Phases.

(** *** The orchestrator *)

Section Orchestrator.
Context `{Collaborators}.

(** What the transfer loop of a run that reached it leaves behind, read
    off the calls it made. *)
Lemma uploadLoop_summary (uploadSpec uploadSpec1 : spec.SpecFiles)
    (configuration : UploadConfiguration) (w w2 : World)
    (servicesManager : ServicesManager) (t12 : list Event) :
  entersLoop uploadSpec configuration w = Some (servicesManager, uploadSpec1, w2, t12) ->
  exists (v : LoopVars) (w3 : World) (t3 : list Event),
    uploadLoop servicesManager uploadSpec1 configuration w2 = (v, w3, t3)
    /\ successCount v = wrap64 (sumUploaded (t12 ++ t3))
    /\ failCount v = wrap64 (sumFailed (t12 ++ t3))
    /\ filesInfo v = collected (t12 ++ t3)
    /\ errorOccurred v = entryError uploadSpec configuration (t12 ++ t3)
    /\ Forall (fun ev => isGeneralDetails ev || isFormatterCall ev = true) t12
    /\ Forall (fun ev => isClientCall ev || isLog ev = true) t3.
Proof.
  intros Henter. destruct (entersLoop_Some _ _ _ _ _ _ _ Henter) as (w1 & _ & Hpre).
  destruct (buildInfoCollection_facts _ _ _ _ _ _ _ Hpre) as [Hsame Hkind12].
  destruct (preflight_trace_readings _ Hkind12) as (Hu & Hf & Hc & _ & Hce & _).
  destruct (uploadLoop servicesManager uploadSpec1 configuration w2) as [[v w3] t3] eqn:Hloop.
  exists v, w3, t3. rewrite uploadLoop_forEach in Hloop.
  destruct (forEach_uploadFile_facts _ _ _ _ _ _ _ _ Hloop) as (Ha & Hs & Hfl & He & Hkind3).
  cbn [initialVars filesInfo successCount failCount errorOccurred app orb] in *.
  unfold entryError.
  rewrite sumUploaded_app, sumFailed_app, collected_app, existsb_app, Hu, Hf, Hc, Hce.
  rewrite <- (sameButProps_paramsFail configuration _ _ Hsame).
  unfold minInt64, maxInt64 in *.
  repeat split; try assumption; [apply Hs | apply Hfl]; lia.
Qed.

(** The commit, being no call to the client, adds nothing to the
    readings of the client's answers. *)
Lemma commit_readings (t : list Event) (ev : Event) :
  isCommit ev = true ->
  sumUploaded (t ++ [ev]) = sumUploaded t
  /\ sumFailed (t ++ [ev]) = sumFailed t
  /\ collected (t ++ [ev]) = collected t
  /\ clientCalls (t ++ [ev]) = clientCalls t
  /\ existsb clientFailed (t ++ [ev]) = existsb clientFailed t.
Proof.
  intros Hev. rewrite sumUploaded_app, sumFailed_app, collected_app, clientCalls_app,
    existsb_app.
  destruct ev; try discriminate. cbn.
  rewrite !Z.add_0_r, !app_nil_r, orb_false_r. repeat split.
Qed.

(** C2: in a run that reached its transfer loop, the counts [Upload]
    returns are the client's sub-counts added up (as ints); if some
    entry's parameter build or client call returned an error, the error
    returned is the generic "finished with errors"; otherwise, if
    [failCount > 0], the error returned is nil. *)
Theorem Upload_outcome (uploadSpec : spec.SpecFiles)
    (configuration : UploadConfiguration) (w : World) :
  is_Some (entersLoop uploadSpec configuration w) ->
  let '((_, (succeeded, failed, err)), _, tr) := Upload uploadSpec configuration w in
  succeeded = wrap64 (sumUploaded tr)
  /\ failed = wrap64 (sumFailed tr)
  /\ (entryError uploadSpec configuration tr = true -> err = Some finishedWithErrors)
  /\ (entryError uploadSpec configuration tr = false -> 0 < failed -> err = None).
Proof.
  intros [[[[mgr spec1] w2] t12] Henter].
  rewrite (Upload_enters _ _ _ _ _ _ _ Henter).
  destruct (uploadLoop_summary _ _ _ _ _ _ _ Henter)
    as (v & w3 & t3 & -> & Hs & Hf & _ & He & _ & _).
  destruct (errorOccurred v) eqn:Herr.
  { rewrite <- He. repeat split; try assumption; discriminate. }
  destruct (0 <? failCount v) eqn:Hfail.
  { rewrite <- He. repeat split; try assumption; discriminate. }
  apply Z.ltb_ge in Hfail.
  destruct (isCollectBuildInfo configuration && negb (DryRun configuration)).
  - cbn zeta.
    destruct (SavePartialBuildInfo _ _ _ w3) as [err w4].
    match goal with |- context [t12 ++ t3 ++ [?ev]] =>
      destruct (commit_readings (t12 ++ t3) ev eq_refl) as (Hu' & Hf' & _ & _ & He')
    end.
    unfold entryError. rewrite !app_assoc, Hu', Hf', He'.
    fold (entryError uploadSpec configuration (t12 ++ t3)).
    rewrite <- He. repeat split; try assumption; try discriminate; lia.
  - rewrite <- He. repeat split; try assumption; try discriminate; lia.
Qed.

Lemma isCollectBuildInfo_true (configuration : UploadConfiguration) :
  isCollectBuildInfo configuration = true
  <-> BuildName configuration <> ""%string /\ BuildNumber configuration <> ""%string.
Proof.
  unfold isCollectBuildInfo.
  destruct (BuildName configuration), (BuildNumber configuration); cbn;
    split; try discriminate; try (intros [? ?]; congruence); try reflexivity;
    intros _; split; discriminate.
Qed.

Lemma sumFailed_nonneg (tr : list Event) :
  Forall (fun ev => 0 <= failedOf ev) tr -> 0 <= sumFailed tr.
Proof. unfold sumFailed. induction 1; cbn; lia. Qed.

Lemma existsb_app_false {A : Type} (p : A -> bool) (l1 l2 : list A) :
  existsb p l1 = false -> existsb p l2 = false -> existsb p (l1 ++ l2) = false.
Proof. intros H1 H2. now rewrite existsb_app, H1, H2. Qed.

(** A dry run saves no general details, injects no property and commits
    nothing. *)
Lemma Upload_dry_run (uploadSpec : spec.SpecFiles) (configuration : UploadConfiguration)
    (w : World) :
  DryRun configuration = true ->
  existsb isGeneralDetails (snd (Upload uploadSpec configuration w)) = false
  /\ existsb isFormatterCall (snd (Upload uploadSpec configuration w)) = false
  /\ existsb isCommit (snd (Upload uploadSpec configuration w)) = false
  /\ fst (fst (fst (Upload uploadSpec configuration w))) = uploadSpec.
Proof.
  intros Hdry.
  assert (Hoff : isCollectBuildInfo configuration && negb (DryRun configuration) = false)
    by (rewrite Hdry; apply andb_false_r).
  destruct (entersLoop uploadSpec configuration w) as [[[[mgr spec1] w2] t12]|] eqn:Henter.
  - rewrite (Upload_enters _ _ _ _ _ _ _ Henter), Hoff.
    destruct (entersLoop_Some _ _ _ _ _ _ _ Henter) as (w1 & _ & Hpre).
    rewrite (buildInfoCollection_off _ _ _ Hoff) in Hpre. injection Hpre as <- <- <-.
    destruct (uploadLoop_summary _ _ _ _ _ _ _ Henter)
      as (v & w3 & t3 & -> & _ & _ & _ & _ & _ & Hkind).
    destruct (loop_trace_readings _ Hkind) as (Hc & Hg & Hf).
    destruct (errorOccurred v), (0 <? failCount v); cbn [fst snd app]; auto.
  - unfold entersLoop in Henter. unfold Upload, bind.
    pose proof (createServiceManager_quiet configuration w) as Hquiet.
    destruct (createServiceManager configuration w) as [[[e | mgr] w1] t1];
      cbn in Hquiet; subst t1; [cbn; auto |].
    rewrite (buildInfoCollection_off _ _ _ Hoff) in Henter. discriminate.
Qed.

(** C3: in a run that reached its transfer loop, with the client's failed
    sub-counts non-negative and their sum an int, [SavePartialBuildInfo]
    is called if and only if build name and build number are non-empty,
    dry-run is false, no entry produced an error and [failCount] is 0; a
    run stopped before the loop does not call it; and in a dry run neither
    the general-details save nor the property formatter nor the commit is
    called, and the specification keeps its property strings. *)
Theorem Upload_commit_iff (uploadSpec : spec.SpecFiles)
    (configuration : UploadConfiguration) (w : World) :
  let '((uploadSpec', (_, failed, _)), _, tr) := Upload uploadSpec configuration w in
  (entersLoop uploadSpec configuration w = None -> existsb isCommit tr = false)
  /\ (is_Some (entersLoop uploadSpec configuration w) ->
      Forall (fun ev => 0 <= failedOf ev) tr ->
      sumFailed tr <= maxInt64 ->
      (existsb isCommit tr = true <->
       BuildName configuration <> ""%string
       /\ BuildNumber configuration <> ""%string
       /\ DryRun configuration = false
       /\ entryError uploadSpec configuration tr = false
       /\ failed = 0))
  /\ (DryRun configuration = true ->
      existsb isGeneralDetails tr = false
      /\ existsb isFormatterCall tr = false
      /\ existsb isCommit tr = false
      /\ uploadSpec' = uploadSpec).
Proof.
  destruct (Upload uploadSpec configuration w) as [[[spec' [[sc fc] err]] w'] tr] eqn:Hrun.
  pose proof (Upload_dry_run uploadSpec configuration w) as Hdry.
  rewrite Hrun in Hdry. cbn [fst snd] in Hdry.
  destruct (entersLoop uploadSpec configuration w) as [[[[mgr spec1] w2] t12]|] eqn:Henter.
  - split; [discriminate |]. split; [| exact Hdry]. intros _ Hpos Hfit. clear Hdry.
    apply sumFailed_nonneg in Hpos.
    rewrite (Upload_enters _ _ _ _ _ _ _ Henter) in Hrun.
    destruct (uploadLoop_summary _ _ _ _ _ _ _ Henter)
      as (v & w3 & t3 & Hloop & _ & Hf & _ & He & Hkind12 & Hkind3).
    rewrite Hloop in Hrun.
    destruct (preflight_trace_readings _ Hkind12) as (_ & _ & _ & _ & _ & Hc12).
    destruct (loop_trace_readings _ Hkind3) as (Hc3 & _ & _).
    pose proof (existsb_app_false _ _ _ Hc12 Hc3) as Hc.
    destruct (errorOccurred v) eqn:Herr.
    { injection Hrun as <- <- <- <- <- <-. rewrite Hc, <- He.
      split; [discriminate |]. intros (_ & _ & _ & Hno & _). discriminate. }
    destruct (0 <? failCount v) eqn:Hfail.
    { injection Hrun as <- <- <- <- <- <-. rewrite Hc.
      split; [discriminate |]. intros (_ & _ & _ & _ & Hzero).
      apply Z.ltb_lt in Hfail. lia. }
    apply Z.ltb_ge in Hfail.
    destruct (isCollectBuildInfo configuration && negb (DryRun configuration)) eqn:Hon.
    + cbn zeta in Hrun.
      destruct (SavePartialBuildInfo _ _ _ w3) as [err' w4].
      injection Hrun as <- <- <- <- <- <-.
      match goal with |- context [t12 ++ t3 ++ [?ev]] =>
        destruct (commit_readings (t12 ++ t3) ev eq_refl) as (_ & Hf' & _ & _ & He')
      end.
      rewrite app_assoc, Hf' in Hpos, Hfit.
      rewrite wrap64_id in Hf by (unfold minInt64, maxInt64 in *; lia).
      apply andb_prop in Hon as [Hcollect Hnodry].
      apply isCollectBuildInfo_true in Hcollect as [Hname Hnumber].
      apply negb_true_iff in Hnodry.
      split; [| intros _; rewrite !existsb_app; cbn; now rewrite !orb_true_r].
      intros _. repeat split; try assumption; [| lia].
      unfold entryError. rewrite !app_assoc, He'.
      fold (entryError uploadSpec configuration (t12 ++ t3)). now rewrite <- He.
    + injection Hrun as <- <- <- <- <- <-. rewrite Hc.
      split; [discriminate |].
      intros (Hname & Hnumber & Hnodry & _ & _).
      assert (isCollectBuildInfo configuration = true) as Hcollect
        by now apply isCollectBuildInfo_true.
      rewrite Hcollect, Hnodry in Hon. discriminate.
  - destruct (Upload_fatal _ _ _ Henter) as (e & w'' & tr' & Hrun' & Hkind).
    rewrite Hrun in Hrun'. injection Hrun' as -> -> -> -> -> ->.
    split; [| split; [intros [x Hx]; discriminate | exact Hdry]].
    intros _. clear -Hkind. induction Hkind as [|ev tr Hev _ IH]; [reflexivity |].
    destruct ev; try discriminate. exact IH.
Qed.

(** The error flag, once set, changes nothing else in the loop. *)
Lemma uploadFile_flag (servicesManager : ServicesManager)
    (configuration : UploadConfiguration) (f : spec.File) (v : LoopVars) (w : World) :
  uploadFile servicesManager configuration f (setErrorOccurred v) w =
  (let '(v', w', t) := uploadFile servicesManager configuration f v w in
   (setErrorOccurred v', w', t)).
Proof.
  destruct (getUploadParams f configuration) as [p [e|]] eqn:Hp.
  - now rewrite !(uploadFile_fail _ _ _ _ _ _ _ Hp).
  - destruct (UploadFiles servicesManager p w) as [[[[a u] fl] err] w1] eqn:Hcall.
    now rewrite !(uploadFile_ok _ _ _ _ _ _ _ _ _ _ _ Hp Hcall).
Qed.

Lemma forEach_flag (servicesManager : ServicesManager)
    (configuration : UploadConfiguration) (files : list spec.File) (v : LoopVars)
    (w : World) :
  forEach files (uploadFile servicesManager configuration) (setErrorOccurred v) w =
  (let '(v', w', t) := forEach files (uploadFile servicesManager configuration) v w in
   (setErrorOccurred v', w', t)).
Proof.
  revert v w. induction files as [|f files IH]; intros v w; [reflexivity |].
  cbn [forEach]. unfold bind. rewrite uploadFile_flag.
  destruct (uploadFile servicesManager configuration f v w) as [[v1 w1] t1].
  rewrite IH. now destruct (forEach files _ v1 w1) as [[v2 w2] t2].
Qed.

(** An entry whose parameters cannot be built is passed over: the loop
    ends as it does without the entry, but for the error flag and one
    logged error. *)
Lemma forEach_skip (servicesManager : ServicesManager)
    (configuration : UploadConfiguration) (pre post : list spec.File) (f : spec.File)
    (v : LoopVars) (w : World) :
  paramsFail configuration f = true ->
  exists (e : error) (t1 t2 : list Event) (v' : LoopVars) (w' : World),
    forEach (pre ++ post) (uploadFile servicesManager configuration) v w
    = (v', w', t1 ++ t2)
    /\ forEach (pre ++ f :: post) (uploadFile servicesManager configuration) v w
       = (setErrorOccurred v', w', t1 ++ EvLogError e :: t2).
Proof.
  unfold paramsFail. intros Hbad.
  destruct (getUploadParams f configuration) as [p [e|]] eqn:Hp; [| discriminate].
  rewrite !forEach_app. cbn [forEach]. unfold bind.
  destruct (forEach pre _ v w) as [[v1 w1] t1].
  rewrite (uploadFile_fail _ _ _ _ _ _ _ Hp), forEach_flag.
  destruct (forEach post _ v1 w1) as [[v2 w2] t2].
  now exists e, t1, t2, v2, w2.
Qed.

(** C5: in a run that reached its transfer loop over a specification with
    a malformed entry at index [i], the counts [Upload] returns, the world
    it leaves and the calls it makes to the client are those of the
    transfer loop over the other entries; the client is called once for
    each entry whose parameters build, in order, and not for entry [i];
    and the error returned is the generic "finished with errors". *)
Theorem Upload_skips_malformed (uploadSpec uploadSpec1 : spec.SpecFiles)
    (configuration : UploadConfiguration) (w w2 : World)
    (servicesManager : ServicesManager) (t12 : list Event) (i : nat) (f : spec.File) :
  spec.Files uploadSpec !! i = Some f ->
  malformed f ->
  entersLoop uploadSpec configuration w = Some (servicesManager, uploadSpec1, w2, t12) ->
  let '(others, wOthers, trOthers) :=
    uploadLoop servicesManager {| spec.Files := delete i (spec.Files uploadSpec1) |}
               configuration w2 in
  let '((uploadSpec', (succeeded, failed, err)), w', tr) :=
    Upload uploadSpec configuration w in
  succeeded = successCount others
  /\ failed = failCount others
  /\ w' = wOthers
  /\ clientCalls tr = clientCalls trOthers
  /\ callParams tr = omap (okParams configuration) (spec.Files uploadSpec')
  /\ (okParams configuration <$> spec.Files uploadSpec' !! i) = Some None
  /\ err = Some finishedWithErrors.
Proof.
  intros Hi Hbad Henter.
  destruct (entersLoop_Some _ _ _ _ _ _ _ Henter) as (w1 & _ & Hpre).
  destruct (buildInfoCollection_facts _ _ _ _ _ _ _ Hpre) as [Hsame Hkind12].
  destruct (preflight_trace_readings _ Hkind12) as (_ & _ & _ & Hcalls12 & _ & _).
  assert (Hparams12 : callParams t12 = []).
  { clear -Hkind12. induction Hkind12 as [|ev t Hev _ IH]; [reflexivity |].
    destruct ev; try discriminate; exact IH. }
  destruct (Forall2_lookup_l _ _ _ _ _ Hsame Hi) as (f1 & Hi1 & [props ->]).
  pose proof (malformed_paramsFail configuration f Hbad) as Hfail.
  rewrite <- (paramsFail_setProps configuration f props) in Hfail.
  assert (Hnone : okParams configuration (spec.setProps f props) = None).
  { unfold paramsFail in Hfail. unfold okParams.
    now destruct (getUploadParams (spec.setProps f props) configuration) as [p [e|]]. }
  rewrite (Upload_enters _ _ _ _ _ _ _ Henter), !uploadLoop_forEach.
  cbn [spec.Files]. rewrite (delete_take_drop (spec.Files uploadSpec1) i).
  pose proof (take_drop_middle _ _ _ Hi1) as Hsplit.
  set (pre := take i (spec.Files uploadSpec1)) in *.
  set (post := drop (S i) (spec.Files uploadSpec1)) in *.
  destruct (forEach (spec.Files uploadSpec1) (uploadFile servicesManager configuration)
              initialVars w2) as [[vAll wAll] tAll] eqn:Hall.
  pose proof (forEach_uploadFile_calls _ _ _ _ _ _ _ _ Hall) as Hparams.
  rewrite <- Hsplit in Hall.
  destruct (forEach_skip servicesManager configuration pre post
              _ initialVars w2 Hfail)
    as (e & t1 & t2 & v' & w' & -> & Hskip).
  rewrite Hskip in Hall. injection Hall as <- <- <-.
  cbn [setErrorOccurred errorOccurred successCount failCount].
  rewrite !clientCalls_app, Hcalls12. cbn [app].
  unfold callParams in *. rewrite omap_app, Hparams12, Hparams, Hi1. cbn [app fmap option_fmap option_map].
  rewrite Hnone. repeat split.
Qed.

Lemma commit_not_preflight (t : list Event) (buildName buildNumber : string)
    (populateFunc : Partial -> Partial) (err : option error) :
  Forall (fun ev => isGeneralDetails ev || isFormatterCall ev = true) t ->
  EvSavePartialBuildInfo buildName buildNumber populateFunc err ∉ t.
Proof.
  intros Hkind Hin. rewrite Forall_forall in Hkind. now specialize (Hkind _ Hin).
Qed.

Lemma commit_not_loop (t : list Event) (buildName buildNumber : string)
    (populateFunc : Partial -> Partial) (err : option error) :
  Forall (fun ev => isClientCall ev || isLog ev = true) t ->
  EvSavePartialBuildInfo buildName buildNumber populateFunc err ∉ t.
Proof.
  intros Hkind Hin. rewrite Forall_forall in Hkind. now specialize (Hkind _ Hin).
Qed.


(** C10: for a specification with no entry, once the service manager is
    there, [Upload] returns zero counts; with build name and number set
    and dry-run off it calls the general-details save and, that save
    having succeeded, the commit with an empty artifact list, and returns
    the commit's error (a failed save is returned at once, before any
    commit); otherwise it makes no call and returns a nil error. *)
Theorem Upload_empty_spec (configuration : UploadConfiguration) (w w1 : World)
    (servicesManager : ServicesManager) :
  createServiceManager configuration w = (inr servicesManager, w1, []) ->
  (BuildName configuration = ""%string \/ BuildNumber configuration = ""%string
   \/ DryRun configuration = true ->
   Upload {| spec.Files := [] |} configuration w
   = (({| spec.Files := [] |}, (0, 0, None)), w1, []))
  /\ (BuildName configuration <> ""%string -> BuildNumber configuration <> ""%string ->
      DryRun configuration = false ->
      (forall (e : error) (w2 : World),
         SaveBuildGeneralDetails (BuildName configuration) (BuildNumber configuration) w1
         = (Some e, w2) ->
         Upload {| spec.Files := [] |} configuration w
         = (({| spec.Files := [] |}, (0, 0, Some e)), w2,
            [EvSaveBuildGeneralDetails (BuildName configuration)
               (BuildNumber configuration) (Some e)]))
      /\ (forall w2 : World,
            SaveBuildGeneralDetails (BuildName configuration) (BuildNumber configuration) w1
            = (None, w2) ->
            exists populateFunc : Partial -> Partial,
              (forall partial : Partial,
                 buildinfo.Artifacts (populateFunc partial) = []
                 /\ buildinfo.Others (populateFunc partial) = buildinfo.Others partial)
              /\ Upload {| spec.Files := [] |} configuration w
                 = (({| spec.Files := [] |},
                     (0, 0,
                      fst (SavePartialBuildInfo (BuildName configuration)
                             (BuildNumber configuration) populateFunc w2))),
                    snd (SavePartialBuildInfo (BuildName configuration)
                           (BuildNumber configuration) populateFunc w2),
                    [EvSaveBuildGeneralDetails (BuildName configuration)
                       (BuildNumber configuration) None;
                     EvSavePartialBuildInfo (BuildName configuration)
                       (BuildNumber configuration) populateFunc
                       (fst (SavePartialBuildInfo (BuildName configuration)
                               (BuildNumber configuration) populateFunc w2))]))).
Proof.
  intros Hinit. split.
  - intros Hoff.
    assert (Hoff' : isCollectBuildInfo configuration && negb (DryRun configuration) = false).
    { unfold isCollectBuildInfo.
      destruct Hoff as [-> | [-> | ->]]; cbn; rewrite ?andb_false_r; reflexivity. }
    unfold Upload, bind. rewrite Hinit, (buildInfoCollection_off _ _ _ Hoff').
    cbn. rewrite Hoff'. reflexivity.
  - intros Hname Hnumber Hdry.
    assert (Hon : isCollectBuildInfo configuration && negb (DryRun configuration) = true).
    { rewrite Hdry, andb_true_r. now apply isCollectBuildInfo_true. }
    split.
    + intros e w2 Hsave. unfold Upload, bind.
      rewrite Hinit, (buildInfoCollection_on _ _ _ Hon), Hsave. reflexivity.
    + intros w2 Hsave.
      exists (populateWith (convertFileInfoToBuildArtifacts [])).
      split; [intros partial; split; reflexivity |].
      unfold Upload, bind.
      rewrite Hinit, (buildInfoCollection_on _ _ _ Hon), Hsave.
      cbn. rewrite Hon. unfold call, populateWith.
      destruct (SavePartialBuildInfo _ _ _ w2) as [err w3]. reflexivity.
Qed.

End Orchestrator.

(** *** Runs of the orchestrator on the scripted world *)

(** Entry A transfers 3 of 3 files and entry B 2 of 3 with no error from
    the client: the run returns 5, 1 and a nil error. *)
Lemma Upload_outcome_witness :
  fst (fst (@Upload Demo.demo Demo.specAB (Demo.config "" "" false) (Demo.world ∅)))
  = (Demo.specAB, (5, 1, None))
  /\ (let '((_, (succeeded, failed, err)), _, tr) :=
        @Upload Demo.demo Demo.specAB (Demo.config "" "" false) (Demo.world ∅) in
      succeeded = wrap64 (sumUploaded tr)
      /\ failed = wrap64 (sumFailed tr)
      /\ (entryError Demo.specAB (Demo.config "" "" false) tr = true ->
          err = Some finishedWithErrors)
      /\ (entryError Demo.specAB (Demo.config "" "" false) tr = false ->
          0 < failed -> err = None)).
Proof.
  split; [vm_compute; reflexivity |].
  apply (@Upload_outcome Demo.demo). eexists. vm_compute. reflexivity.
Defined.

(** With build "b" number "7" and entry A alone, the commit is made. *)
Lemma Upload_commit_iff_witness :
  existsb isCommit
    (snd (@Upload Demo.demo Demo.specA (Demo.config "b" "7" false) (Demo.world ∅))) = true
  <-> "b"%string <> ""%string /\ "7"%string <> ""%string /\ false = false
      /\ entryError Demo.specA (Demo.config "b" "7" false)
           (snd (@Upload Demo.demo Demo.specA (Demo.config "b" "7" false) (Demo.world ∅)))
         = false
      /\ snd (fst (snd (fst (fst (@Upload Demo.demo Demo.specA (Demo.config "b" "7" false)
                                    (Demo.world ∅)))))) = 0.
Proof.
  pose proof (@Upload_commit_iff Demo.demo Demo.specA (Demo.config "b" "7" false)
                (Demo.world ∅)) as Hthm.
  destruct (@Upload Demo.demo Demo.specA (Demo.config "b" "7" false) (Demo.world ∅))
    as [[[spec' [[sc fc] err]] w'] tr] eqn:Hrun.
  destruct Hthm as (_ & Hiff & _). cbn [fst snd].
  vm_compute in Hrun. injection Hrun as <- <- <- <- <- <-.
  apply Hiff.
  - eexists. vm_compute. reflexivity.
  - repeat constructor; vm_compute; discriminate.
  - vm_compute. discriminate.
Defined.

(** C3 as stated fails on a run stopped before the transfer loop: with
    build "b" number "7", dry-run off and a store that refuses the general
    details, build name and number are non-empty, dry-run is false, no
    entry produced an error and [failCount] is 0, yet
    [SavePartialBuildInfo] is not called, so the commit is not attempted
    although the right-hand side of the claimed equivalence holds. *)
Lemma Upload_no_commit_after_failed_save :
  @entersLoop Demo.demo Demo.specAB (Demo.config "b" "7" false)
    Demo.generalDetailsRefused = None
  /\ @BuildName Demo.demo (Demo.config "b" "7" false) <> ""%string
  /\ @BuildNumber Demo.demo (Demo.config "b" "7" false) <> ""%string
  /\ @DryRun Demo.demo (Demo.config "b" "7" false) = false
  /\ entryError Demo.specAB (Demo.config "b" "7" false)
       (snd (@Upload Demo.demo Demo.specAB (Demo.config "b" "7" false)
               Demo.generalDetailsRefused)) = false
  /\ snd (fst (snd (fst (fst (@Upload Demo.demo Demo.specAB (Demo.config "b" "7" false)
                                Demo.generalDetailsRefused))))) = 0
  /\ existsb isCommit
       (snd (@Upload Demo.demo Demo.specAB (Demo.config "b" "7" false)
               Demo.generalDetailsRefused)) = false
  /\ ~ (existsb isCommit
          (snd (@Upload Demo.demo Demo.specAB (Demo.config "b" "7" false)
                  Demo.generalDetailsRefused)) = true
        <-> @BuildName Demo.demo (Demo.config "b" "7" false) <> ""%string
            /\ @BuildNumber Demo.demo (Demo.config "b" "7" false) <> ""%string
            /\ @DryRun Demo.demo (Demo.config "b" "7" false) = false
            /\ entryError Demo.specAB (Demo.config "b" "7" false)
                 (snd (@Upload Demo.demo Demo.specAB (Demo.config "b" "7" false)
                         Demo.generalDetailsRefused)) = false
            /\ snd (fst (snd (fst (fst (@Upload Demo.demo Demo.specAB
                                          (Demo.config "b" "7" false)
                                          Demo.generalDetailsRefused))))) = 0).
Proof.
  assert (Hrun : @Upload Demo.demo Demo.specAB (Demo.config "b" "7" false)
                   Demo.generalDetailsRefused
                 = ((Demo.specAB, (0, 0, Some (ErrorString "cannot write build details"))),
                    Demo.generalDetailsRefused,
                    [@EvSaveBuildGeneralDetails Demo.demo "b" "7"
                       (Some (ErrorString "cannot write build details"))]))
    by (vm_compute; reflexivity).
  rewrite Hrun. cbn [fst snd].
  assert (Herr : entryError Demo.specAB (Demo.config "b" "7" false)
                   [@EvSaveBuildGeneralDetails Demo.demo "b" "7"
                      (Some (ErrorString "cannot write build details"))] = false)
    by (vm_compute; reflexivity).
  rewrite Herr.
  split; [vm_compute; reflexivity |].
  split; [discriminate |]. split; [discriminate |]. split; [reflexivity |].
  split; [reflexivity |]. split; [reflexivity |]. split; [reflexivity |].
  intros [_ Hback].
  assert (Hcommit : (false = true)) by
    (apply Hback; repeat split; discriminate).
  discriminate Hcommit.
Qed.

(** Entry C, between A and B, has the override "maybe": the run returns
    the counts of A and B, 5 and 1, and "finished with errors". *)
Lemma Upload_skips_malformed_witness :
  fst (fst (@Upload Demo.demo Demo.specACB (Demo.config "" "" false) (Demo.world ∅)))
  = (Demo.specACB, (5, 1, Some finishedWithErrors))
  /\ (let '(others, wOthers, trOthers) :=
        @uploadLoop Demo.demo tt
          {| spec.Files := delete 1%nat (spec.Files Demo.specACB) |}
          (Demo.config "" "" false) (Demo.world ∅) in
      let '((uploadSpec', (succeeded, failed, err)), w', tr) :=
        @Upload Demo.demo Demo.specACB (Demo.config "" "" false) (Demo.world ∅) in
      succeeded = successCount others
      /\ failed = failCount others
      /\ w' = wOthers
      /\ clientCalls tr = clientCalls trOthers
      /\ callParams tr = omap (okParams (Demo.config "" "" false)) (spec.Files uploadSpec')
      /\ (okParams (Demo.config "" "" false) <$> spec.Files uploadSpec' !! 1%nat) = Some None
      /\ err = Some finishedWithErrors).
Proof.
  split; [vm_compute; reflexivity |].
  apply (@Upload_skips_malformed Demo.demo Demo.specACB Demo.specACB
           (Demo.config "" "" false) (Demo.world ∅) (Demo.world ∅) tt [] 1%nat Demo.entryC).
  - reflexivity.
  - left. split; [discriminate | vm_compute; discriminate].
  - vm_compute. reflexivity.
Defined.


(** No entry, build "b" number "7": the general-details save and the
    commit are called, the commit with an empty artifact list. *)
Lemma Upload_empty_spec_witness :
  exists populateFunc : @Partial Demo.demo -> @Partial Demo.demo,
    (forall partial : @Partial Demo.demo,
       buildinfo.Artifacts (populateFunc partial) = []
       /\ buildinfo.Others (populateFunc partial) = buildinfo.Others partial)
    /\ @Upload Demo.demo {| spec.Files := [] |} (Demo.config "b" "7" false) (Demo.world ∅)
       = (({| spec.Files := [] |},
           (0, 0,
            fst (@SavePartialBuildInfo Demo.demo "b" "7" populateFunc (Demo.world ∅)))),
          snd (@SavePartialBuildInfo Demo.demo "b" "7" populateFunc (Demo.world ∅)),
          [@EvSaveBuildGeneralDetails Demo.demo "b" "7" None;
           @EvSavePartialBuildInfo Demo.demo "b" "7" populateFunc
             (fst (@SavePartialBuildInfo Demo.demo "b" "7" populateFunc (Demo.world ∅)))]).
Proof.
  refine (proj2 (proj2 (@Upload_empty_spec Demo.demo (Demo.config "b" "7" false)
                          (Demo.world ∅) (Demo.world ∅) tt _) _ _ _) (Demo.world ∅) _).
  - vm_compute. reflexivity.
  - discriminate.
  - discriminate.
  - reflexivity.
  - reflexivity.
Defined.

(** C4, on the code: with build "b" number "7" and a formatter that fails
    on entry A, [Upload] goes on to transfer and commit; the formatter's
    error is in no log call, the error returned is nil, and the entry's
    property string is what it was. *)
Lemma Upload_drops_injector_error :
  existsb formatterFailed
    (snd (@Upload Demo.demo Demo.specA (Demo.config "b" "7" false) Demo.brokenFormatter))
  = true
  /\ existsb isLog
       (snd (@Upload Demo.demo Demo.specA (Demo.config "b" "7" false) Demo.brokenFormatter))
     = false
  /\ existsb isCommit
       (snd (@Upload Demo.demo Demo.specA (Demo.config "b" "7" false) Demo.brokenFormatter))
     = true
  /\ fst (fst (@Upload Demo.demo Demo.specA (Demo.config "b" "7" false) Demo.brokenFormatter))
     = (Demo.specA, (3, 0, None)).
Proof. vm_compute. repeat split. Qed.

(** A run that cannot find its security directory stops at once: zero
    counts, the error, no call recorded. *)
Example Upload_without_security_dir :
  @Upload Demo.demo Demo.specAB (Demo.config "b" "7" false) Demo.noSecurityDir
  = ((Demo.specAB, (0, 0, Some (ErrorString "no home directory"))), Demo.noSecurityDir, []).
Proof. vm_compute. reflexivity. Qed.

(** A failing client call is logged and flagged, and the entries after it
    are still transferred. *)
Example Upload_with_client_error :
  fst (fst (@Upload Demo.demo
              {| spec.Files := [Demo.entry "down/*" "" ""; Demo.entryA] |}
              (Demo.config "" "" false) (Demo.world ∅)))
  = ({| spec.Files := [Demo.entry "down/*" "" ""; Demo.entryA] |},
     (3, 0, Some finishedWithErrors)).
Proof. vm_compute. reflexivity. Qed.

(** ** Further properties of upload.go *)

(** *** [getMinChecksumDeploySize]: the error case *)

(** X1: [getMinChecksumDeploySize] returns an error exactly when the
    variable holds a non-empty value that [strconv.ParseInt] rejects; the
    error is [ParseInt]'s, and the size beside it is 0. *)
Theorem getMinChecksumDeploySize_error (environ : gmap string string)
    (size : Z) (e : error) :
  getMinChecksumDeploySize environ = (size, Some e)
  <-> size = 0
      /\ Getenv environ "JFROG_CLI_MIN_CHECKSUM_DEPLOY_SIZE_KB" <> ""%string
      /\ snd (ParseInt (Getenv environ "JFROG_CLI_MIN_CHECKSUM_DEPLOY_SIZE_KB") 10 64)
         = Some e.
Proof.
  unfold getMinChecksumDeploySize, CheckError.
  destruct (String.eqb_spec (Getenv environ "JFROG_CLI_MIN_CHECKSUM_DEPLOY_SIZE_KB") "")
    as [Heq | Hne].
  - split; [discriminate | intros (_ & Hraw & _); now contradiction Hraw].
  - destruct (ParseInt _ 10 64) as [v [e'|]]; cbn [snd].
    + split; [intros [= <- <-]; now repeat split | intros (-> & _ & [= ->]); reflexivity].
    + split; [discriminate | intros (_ & _ & Hno); discriminate].
Qed.

(** *** [getUploadParams] *)

Section Params.
Context `{Collaborators}.

Lemma getOrDefault_ok (raw : string) (defaultValue b : bool) :
  spec.getOrDefault raw defaultValue = (b, None) ->
  ~ badOverride raw /\ b = resolved raw defaultValue.
Proof.
  unfold spec.getOrDefault, resolved, badOverride.
  destruct (String.eqb_spec raw "") as [-> | Hne].
  - intros [= <-]. split; [intros [Hraw _]; now contradiction Hraw | reflexivity].
  - intros Hparse. rewrite Hparse. cbn. split; [intros [_ Hbad]; now contradiction Hbad | reflexivity].
Qed.

Lemma getOrDefault_error (raw : string) (defaultValue b : bool) (e : error) :
  spec.getOrDefault raw defaultValue = (b, Some e) ->
  badOverride raw /\ snd (ParseBool raw) = Some e.
Proof.
  unfold spec.getOrDefault, badOverride.
  destruct (String.eqb_spec raw "") as [-> | Hne]; [discriminate |].
  intros Hparse. rewrite Hparse. cbn. now repeat split.
Qed.

(** X2: [getUploadParams] returns an error exactly when one of the five
    overrides of the entry is present and does not parse as a boolean,
    whatever the configuration. *)
Theorem getUploadParams_error_iff_malformed (f : spec.File)
    (configuration : UploadConfiguration) :
  snd (getUploadParams f configuration) <> None <-> malformed f.
Proof.
  split.
  - unfold getUploadParams, spec.IsRecursive, spec.IsRegexp, spec.IsIncludeDirs,
      spec.IsFlat, spec.IsExplode, malformed.
    destruct (spec.getOrDefault (spec.Recursive f) true) as [b1 [e1|]] eqn:E1;
      [intros _; left; now apply getOrDefault_error in E1 |].
    destruct (spec.getOrDefault (spec.Regexp f) false) as [b2 [e2|]] eqn:E2;
      [intros _; right; left; now apply getOrDefault_error in E2 |].
    destruct (spec.getOrDefault (spec.IncludeDirs f) false) as [b3 [e3|]] eqn:E3;
      [intros _; do 2 right; left; now apply getOrDefault_error in E3 |].
    destruct (spec.getOrDefault (spec.Flat f) true) as [b4 [e4|]] eqn:E4;
      [intros _; do 3 right; left; now apply getOrDefault_error in E4 |].
    destruct (spec.getOrDefault (spec.Explode f) false) as [b5 [e5|]] eqn:E5;
      [intros _; do 4 right; now apply getOrDefault_error in E5 |].
    intros Hno. now contradiction Hno.
  - intros Hbad. pose proof (malformed_paramsFail configuration f Hbad) as Hfail.
    unfold paramsFail in Hfail.
    destruct (snd (getUploadParams f configuration)); [discriminate | discriminate].
Qed.

(** X3: for an entry none of whose overrides is malformed,
    [getUploadParams] returns no error and parameters that carry the
    entry's pattern, target and properties, each override parsed, or its
    default when absent (recursive and flat true; regexp, include-dirs and
    explode false), and [Deb], [Symlink] and [Retries] of the
    configuration. *)
Theorem getUploadParams_resolved (f : spec.File) (configuration : UploadConfiguration) :
  ~ malformed f ->
  getUploadParams f configuration = (resolvedParams f configuration, None).
Proof.
  unfold malformed. intros Hok.
  unfold getUploadParams, spec.IsRecursive, spec.IsRegexp, spec.IsIncludeDirs,
    spec.IsFlat, spec.IsExplode.
  destruct (spec.getOrDefault (spec.Recursive f) true) as [b1 [e1|]] eqn:E1;
    [apply getOrDefault_error in E1 as [Hb _]; tauto |].
  destruct (spec.getOrDefault (spec.Regexp f) false) as [b2 [e2|]] eqn:E2;
    [apply getOrDefault_error in E2 as [Hb _]; tauto |].
  destruct (spec.getOrDefault (spec.IncludeDirs f) false) as [b3 [e3|]] eqn:E3;
    [apply getOrDefault_error in E3 as [Hb _]; tauto |].
  destruct (spec.getOrDefault (spec.Flat f) true) as [b4 [e4|]] eqn:E4;
    [apply getOrDefault_error in E4 as [Hb _]; tauto |].
  destruct (spec.getOrDefault (spec.Explode f) false) as [b5 [e5|]] eqn:E5;
    [apply getOrDefault_error in E5 as [Hb _]; tauto |].
  apply getOrDefault_ok in E1 as [_ ->], E2 as [_ ->], E3 as [_ ->], E4 as [_ ->],
    E5 as [_ ->].
  reflexivity.
Qed.

(** X4: of the configuration, [getUploadParams] reads [Deb], [Symlink] and
    [Retries] and nothing else: two configurations that agree on these
    three give the same parameters and the same error.  In particular the
    configuration's [ExplodeArchive] flag never reaches the parameters. *)
Theorem getUploadParams_reads_three_fields (f : spec.File)
    (c1 c2 : UploadConfiguration) :
  Deb c1 = Deb c2 -> Symlink c1 = Symlink c2 -> Retries c1 = Retries c2 ->
  getUploadParams f c1 = getUploadParams f c2.
Proof.
  intros Hdeb Hsym Hretries. unfold getUploadParams.
  destruct (spec.IsRecursive f true) as [b1 [e1|]]; [reflexivity |].
  destruct (spec.IsRegexp f false) as [b2 [e2|]]; [reflexivity |].
  destruct (spec.IsIncludeDirs f false) as [b3 [e3|]]; [reflexivity |].
  destruct (spec.IsFlat f true) as [b4 [e4|]]; [reflexivity |].
  destruct (spec.IsExplode f false) as [b5 [e5|]]; [reflexivity |].
  now rewrite Hdeb, Hsym, Hretries.
Qed.

(** X5: the overrides are resolved in the order recursive, regexp,
    include-dirs, flat, explode, and the error returned is that of the
    first one that does not parse; the parameters returned beside an
    error keep [Deb], [Symlink] and [Retries] as [NewUploadParams] made
    them, the configuration's values not being copied. *)
Theorem getUploadParams_first_error (f : spec.File) (configuration : UploadConfiguration) :
  (badOverride (spec.Recursive f) ->
   snd (getUploadParams f configuration) = snd (ParseBool (spec.Recursive f)))
  /\ (~ badOverride (spec.Recursive f) -> badOverride (spec.Regexp f) ->
      snd (getUploadParams f configuration) = snd (ParseBool (spec.Regexp f)))
  /\ (~ badOverride (spec.Recursive f) -> ~ badOverride (spec.Regexp f) ->
      badOverride (spec.IncludeDirs f) ->
      snd (getUploadParams f configuration) = snd (ParseBool (spec.IncludeDirs f)))
  /\ (~ badOverride (spec.Recursive f) -> ~ badOverride (spec.Regexp f) ->
      ~ badOverride (spec.IncludeDirs f) -> badOverride (spec.Flat f) ->
      snd (getUploadParams f configuration) = snd (ParseBool (spec.Flat f)))
  /\ (~ badOverride (spec.Recursive f) -> ~ badOverride (spec.Regexp f) ->
      ~ badOverride (spec.IncludeDirs f) -> ~ badOverride (spec.Flat f) ->
      badOverride (spec.Explode f) ->
      snd (getUploadParams f configuration) = snd (ParseBool (spec.Explode f)))
  /\ (snd (getUploadParams f configuration) <> None ->
      services.Deb (fst (getUploadParams f configuration))
      = services.Deb services.NewUploadParams
      /\ services.Symlink (fst (getUploadParams f configuration))
         = services.Symlink services.NewUploadParams
      /\ services.Retries (fst (getUploadParams f configuration))
         = services.Retries services.NewUploadParams).
Proof.
  unfold getUploadParams, spec.IsRecursive, spec.IsRegexp, spec.IsIncludeDirs,
    spec.IsFlat, spec.IsExplode.
  destruct (spec.getOrDefault (spec.Recursive f) true) as [b1 [e1|]] eqn:E1.
  { apply getOrDefault_error in E1 as [Hb He]. cbn. rewrite He.
    repeat split; try tauto. }
  destruct (spec.getOrDefault (spec.Regexp f) false) as [b2 [e2|]] eqn:E2.
  { apply getOrDefault_ok in E1 as [Hb1 _].
    apply getOrDefault_error in E2 as [Hb He]. cbn. rewrite He.
    repeat split; try tauto. }
  destruct (spec.getOrDefault (spec.IncludeDirs f) false) as [b3 [e3|]] eqn:E3.
  { apply getOrDefault_ok in E1 as [Hb1 _], E2 as [Hb2 _].
    apply getOrDefault_error in E3 as [Hb He]. cbn. rewrite He.
    repeat split; try tauto. }
  destruct (spec.getOrDefault (spec.Flat f) true) as [b4 [e4|]] eqn:E4.
  { apply getOrDefault_ok in E1 as [Hb1 _], E2 as [Hb2 _], E3 as [Hb3 _].
    apply getOrDefault_error in E4 as [Hb He]. cbn. rewrite He.
    repeat split; try tauto. }
  destruct (spec.getOrDefault (spec.Explode f) false) as [b5 [e5|]] eqn:E5.
  { apply getOrDefault_ok in E1 as [Hb1 _], E2 as [Hb2 _], E3 as [Hb3 _], E4 as [Hb4 _].
    apply getOrDefault_error in E5 as [Hb He]. cbn. rewrite He.
    repeat split; try tauto. }
  apply getOrDefault_ok in E1 as [Hb1 _], E2 as [Hb2 _], E3 as [Hb3 _], E4 as [Hb4 _],
    E5 as [Hb5 _].
  cbn. repeat split; try tauto.
Qed.

End Params.

(** *** [addBuildProps] and [convertFileInfoToBuildArtifacts] *)

Section Appends.
Context `{Collaborators}.

(** X6: whatever the formatter answers, [addBuildProps] only appends: the
    string it leaves starts with the string it was given; it is that very
    string when an error is returned or when the formatter's fragment is
    empty (no separator is added then); and the formatter is called at
    most once. *)
Theorem addBuildProps_only_appends (p buildName buildNumber : string) (w : World) :
  let '((p', err), _, t) := addBuildProps p buildName buildNumber w in
  (exists suffix : string, p' = (p +:+ suffix)%string)
  /\ (err <> None -> p' = p)
  /\ (fst (fst (CreateBuildProperties buildName buildNumber w)) = ""%string -> p' = p)
  /\ (length t <= 1)%nat.
Proof.
  unfold addBuildProps.
  destruct (String.eqb buildName "" || String.eqb buildNumber "").
  { cbn. repeat split; try lia. exists ""%string. now rewrite string_app_nil_r. }
  unfold bind, call, ret.
  destruct (CreateBuildProperties buildName buildNumber w) as [[f [e|]] w1]; cbn [fst].
  { cbn. repeat split; try lia. exists ""%string. now rewrite string_app_nil_r. }
  cbn [app length]. repeat split; try lia.
  - destruct ((0 <? String.length p)%nat && negb (HasSuffix p ";")
              && (0 <? String.length f)%nat).
    + exists (";" +:+ f)%string. now rewrite string_app_assoc.
    + now exists f.
  - intros Hno. now contradiction Hno.
  - intros ->. cbn [String.length Nat.ltb Nat.leb]. rewrite andb_false_r.
    apply string_app_nil_r.
Qed.

(** X7: [convertFileInfoToBuildArtifacts] goes through concatenation: the
    artifacts of descriptors collected over several client calls are the
    artifacts of each call's descriptors, one after the other; no
    descriptor gives no artifact. *)
Theorem convertFileInfoToBuildArtifacts_app (l1 l2 : list FileInfo) :
  convertFileInfoToBuildArtifacts (l1 ++ l2)
  = convertFileInfoToBuildArtifacts l1 ++ convertFileInfoToBuildArtifacts l2
  /\ convertFileInfoToBuildArtifacts [] = [].
Proof.
  rewrite !convertFileInfoToBuildArtifacts_map. split; [apply map_app | reflexivity].
Qed.

End Appends.

(** *** [Upload]: runs that stop before the transfer loop *)

Section Fatal.
Context `{Collaborators}.

(** X8: each step of "Create Service Manager" is fatal.  When the security
    directory lookup, the resolution of the minimum checksum-deploy size,
    the authentication configuration, the build of the service
    configuration (given the authentication, the dry-run flag, the
    certificate path, the resolved size and the thread count) or the
    construction of the manager returns an error, [Upload] returns zero
    counts and that error, leaves the specification as it was, makes no
    recorded call, and leaves the world as the failing step left it. *)
Theorem Upload_init_failure (uploadSpec : spec.SpecFiles)
    (configuration : UploadConfiguration) (w : World) (e : error) :
  (forall (certPath : string) (w1 : World),
     GetJfrogSecurityDir w = ((certPath, Some e), w1) ->
     Upload uploadSpec configuration w = ((uploadSpec, (0, 0, Some e)), w1, []))
  /\ (forall (certPath : string) (w1 : World),
        GetJfrogSecurityDir w = ((certPath, None), w1) ->
        (forall size : Z,
           getMinChecksumDeploySize (environ w1) = (size, Some e) ->
           Upload uploadSpec configuration w = ((uploadSpec, (0, 0, Some e)), w1, []))
        /\ (forall size : Z,
              getMinChecksumDeploySize (environ w1) = (size, None) ->
              (forall (artAuth : ArtAuth) (w2 : World),
                 CreateArtAuthConfig (ArtDetails configuration) w1
                 = ((artAuth, Some e), w2) ->
                 Upload uploadSpec configuration w
                 = ((uploadSpec, (0, 0, Some e)), w2, []))
              /\ (forall (artAuth : ArtAuth) (w2 : World),
                    CreateArtAuthConfig (ArtDetails configuration) w1
                    = ((artAuth, None), w2) ->
                    (forall (servicesConfig : Config) (w3 : World),
                       Build (builderOf artAuth configuration certPath size) w2
                       = ((servicesConfig, Some e), w3) ->
                       Upload uploadSpec configuration w
                       = ((uploadSpec, (0, 0, Some e)), w3, []))
                    /\ (forall (servicesConfig : Config) (w3 : World),
                          Build (builderOf artAuth configuration certPath size) w2
                          = ((servicesConfig, None), w3) ->
                          forall (servicesManager : ServicesManager) (w4 : World),
                            New servicesConfig w3 = ((servicesManager, Some e), w4) ->
                            Upload uploadSpec configuration w
                            = ((uploadSpec, (0, 0, Some e)), w4, []))))).
Proof.
  unfold Upload, createServiceManager, createUploadServiceConfig, builderOf,
    bind, quiet, os_environ, ret.
  split; [intros certPath w1 ->; reflexivity |].
  intros certPath w1 ->. split; [intros size ->; reflexivity |].
  intros size ->. split; [intros artAuth w2 ->; reflexivity |].
  intros artAuth w2 ->. split; [intros servicesConfig w3 ->; reflexivity |].
  intros servicesConfig w3 -> servicesManager w4 ->. reflexivity.
Qed.

(** X9: with build name and number set and dry-run off, a failing
    general-details save is fatal for any specification: [Upload] returns
    zero counts and the save's error, has called nothing but the save (no
    property formatter, no client, no commit), and leaves the
    specification as it was. *)
Theorem Upload_general_details_failure (uploadSpec : spec.SpecFiles)
    (configuration : UploadConfiguration) (w w1 w2 : World)
    (servicesManager : ServicesManager) (e : error) :
  createServiceManager configuration w = (inr servicesManager, w1, []) ->
  BuildName configuration <> ""%string ->
  BuildNumber configuration <> ""%string ->
  DryRun configuration = false ->
  SaveBuildGeneralDetails (BuildName configuration) (BuildNumber configuration) w1
  = (Some e, w2) ->
  Upload uploadSpec configuration w
  = ((uploadSpec, (0, 0, Some e)), w2,
     [EvSaveBuildGeneralDetails (BuildName configuration) (BuildNumber configuration)
        (Some e)]).
Proof.
  intros Hinit Hname Hnumber Hdry Hsave.
  assert (Hon : isCollectBuildInfo configuration && negb (DryRun configuration) = true).
  { rewrite Hdry, andb_true_r. now apply isCollectBuildInfo_true. }
  unfold Upload, bind. rewrite Hinit, (buildInfoCollection_on _ _ _ Hon), Hsave.
  reflexivity.
Qed.

End Fatal.

(** The override "ten" is no integer: the run stops with [ParseInt]'s
    error before any call. *)
Lemma Upload_init_failure_witness :
  @Upload Demo.demo Demo.specAB (Demo.config "b" "7" false) Demo.badSizeOverride
  = ((Demo.specAB, (0, 0, Some (NumError "ParseInt" "ten" ErrSyntax))),
     Demo.badSizeOverride, []).
Proof.
  refine (proj1 (proj2 (@Upload_init_failure Demo.demo Demo.specAB
                          (Demo.config "b" "7" false) Demo.badSizeOverride
                          (NumError "ParseInt" "ten" ErrSyntax))
                   "/home/user/.jfrog/security"%string Demo.badSizeOverride _) 0 _).
  - reflexivity.
  - vm_compute. reflexivity.
Defined.

(** The store refuses the general details of build "b" number "7". *)
Lemma Upload_general_details_failure_witness :
  @Upload Demo.demo Demo.specAB (Demo.config "b" "7" false) Demo.generalDetailsRefused
  = ((Demo.specAB, (0, 0, Some (ErrorString "cannot write build details"))),
     Demo.generalDetailsRefused,
     [@EvSaveBuildGeneralDetails Demo.demo "b" "7"
        (Some (ErrorString "cannot write build details"))]).
Proof.
  apply (@Upload_general_details_failure Demo.demo Demo.specAB
           (Demo.config "b" "7" false) Demo.generalDetailsRefused
           Demo.generalDetailsRefused Demo.generalDetailsRefused tt).
  - vm_compute. reflexivity.
  - discriminate.
  - discriminate.
  - reflexivity.
  - reflexivity.
Defined.

(** *** [Upload]: what every run keeps *)

Section Runs.
Context `{Collaborators}.

Lemma countCalls_app (kind : Event -> bool) (t1 t2 : list Event) :
  countCalls kind (t1 ++ t2) = (countCalls kind t1 + countCalls kind t2)%nat.
Proof. unfold countCalls. now rewrite List.filter_app, length_app. Qed.

Lemma countCalls_none (kind : Event -> bool) (t : list Event) :
  Forall (fun ev => kind ev = false) t -> countCalls kind t = 0%nat.
Proof.
  unfold countCalls. induction 1 as [|ev t Hev _ IH]; [reflexivity |].
  cbn. now rewrite Hev.
Qed.

Lemma countCalls_all (kind : Event -> bool) (t : list Event) :
  Forall (fun ev => kind ev = true) t -> countCalls kind t = length t.
Proof.
  unfold countCalls. induction 1 as [|ev t Hev _ IH]; [reflexivity |].
  cbn. rewrite Hev. cbn. now rewrite IH.
Qed.

Lemma sameButProps_refl (l : list spec.File) : Forall2 sameButProps l l.
Proof.
  induction l as [|f l IH]; constructor; [| exact IH].
  exists (spec.Props f). now destruct f.
Qed.

Lemma addBuildProps_one_call (p buildName buildNumber : string) (w : World) :
  buildName <> ""%string -> buildNumber <> ""%string ->
  length (snd (addBuildProps p buildName buildNumber w)) = 1%nat.
Proof.
  intros Hname Hnumber. rewrite addBuildProps_call by assumption.
  unfold bind, call, ret.
  destruct (CreateBuildProperties buildName buildNumber w) as [[bp [e|]] w0]; reflexivity.
Qed.

(** With build name and number set, the formatter is called once for
    each entry, whatever it answers. *)
Lemma injectAll_calls (configuration : UploadConfiguration) (files files' : list spec.File)
    (w w' : World) (t : list Event) :
  isCollectBuildInfo configuration = true ->
  injectAll configuration files w = (files', w', t) ->
  length t = length files.
Proof.
  intros [Hname Hnumber]%isCollectBuildInfo_true.
  revert files' w w' t. induction files as [|f files IH]; intros files' w w' t Hrun.
  - now injection Hrun as <- <- <-.
  - cbn [injectAll] in Hrun. unfold bind in Hrun.
    pose proof (addBuildProps_one_call (spec.Props f) _ _ w Hname Hnumber) as Hone.
    destruct (addBuildProps _ _ _ w) as [[[props e] w1] t1].
    destruct (injectAll configuration files w1) as [[rest' w2] t2] eqn:Hrest.
    cbn [ret] in Hrun. injection Hrun as <- <- <-. cbn [snd] in Hone.
    rewrite app_nil_r, length_app, Hone, (IH _ _ _ _ Hrest). reflexivity.
Qed.

(** The calls of "Build Info Collection" when it lets the run go on:
    none when build-info collection is off; otherwise the general-details
    save, then one formatter call for each entry. *)
Lemma buildInfoCollection_shape (uploadSpec uploadSpec1 : spec.SpecFiles)
    (configuration : UploadConfiguration) (w w' : World) (t : list Event) :
  buildInfoCollection uploadSpec configuration w = ((uploadSpec1, None), w', t) ->
  (isCollectBuildInfo configuration && negb (DryRun configuration) = false
   /\ t = [] /\ uploadSpec1 = uploadSpec)
  \/ (isCollectBuildInfo configuration && negb (DryRun configuration) = true
      /\ exists t2 : list Event,
           t = EvSaveBuildGeneralDetails (BuildName configuration)
                 (BuildNumber configuration) None :: t2
           /\ Forall (fun ev => isFormatterCall ev = true) t2
           /\ length t2 = length (spec.Files uploadSpec)).
Proof.
  intros Hrun.
  destruct (isCollectBuildInfo configuration && negb (DryRun configuration)) eqn:Hon.
  - right. split; [reflexivity |].
    rewrite (buildInfoCollection_on _ _ _ Hon) in Hrun.
    destruct (SaveBuildGeneralDetails _ _ w) as [[e|] w1]; [discriminate |].
    destruct (injectAll configuration (spec.Files uploadSpec) w1)
      as [[files' w2] t2] eqn:Hinj.
    injection Hrun as <- <- <-. exists t2. split; [reflexivity |].
    split; [now apply (injectAll_facts _ _ _ _ _ _ Hinj) |].
    apply andb_prop in Hon as [Hcollect _]. eapply injectAll_calls; eassumption.
  - left. rewrite (buildInfoCollection_off _ _ _ Hon) in Hrun.
    now injection Hrun as <- <- <-.
Qed.

(** One logged error for each entry whose parameters cannot be built and
    for each failed call to the client. *)
Lemma forEach_uploadFile_logs (servicesManager : ServicesManager)
    (configuration : UploadConfiguration) (files : list spec.File) (v v' : LoopVars)
    (w w' : World) (t : list Event) :
  forEach files (uploadFile servicesManager configuration) v w = (v', w', t) ->
  countCalls isLog t
  = (length (List.filter (paramsFail configuration) files)
     + countCalls clientFailed t)%nat.
Proof.
  revert v w v' w' t. induction files as [|f files IH]; intros v w v' w' t Hrun.
  - now injection Hrun as <- <- <-.
  - cbn [forEach] in Hrun. unfold bind in Hrun.
    destruct (uploadFile servicesManager configuration f v w) as [[v1 w1] t1] eqn:Hstep.
    destruct (forEach files _ v1 w1) as [[v2 w2] t2] eqn:Hrest.
    injection Hrun as <- <- <-.
    rewrite !countCalls_app, (IH _ _ _ _ _ Hrest). cbn [List.filter].
    unfold paramsFail at 2.
    destruct (getUploadParams f configuration) as [p [e|]] eqn:Hp; cbn [snd].
    + rewrite (uploadFile_fail _ _ _ _ _ _ _ Hp) in Hstep. injection Hstep as <- <- <-.
      cbn. lia.
    + destruct (UploadFiles servicesManager p w) as [[[[a u] fl] err] w0] eqn:Hcall.
      rewrite (uploadFile_ok _ _ _ _ _ _ _ _ _ _ _ Hp Hcall) in Hstep.
      injection Hstep as <- <- <-. destruct err; cbn; lia.
Qed.

Lemma sameButProps_filter (configuration : UploadConfiguration)
    (files files' : list spec.File) :
  Forall2 sameButProps files files' ->
  length (List.filter (paramsFail configuration) files')
  = length (List.filter (paramsFail configuration) files).
Proof.
  induction 1 as [|f f' files files' [props ->] _ IH]; [reflexivity |].
  cbn [List.filter]. rewrite paramsFail_setProps.
  destruct (paramsFail configuration f); cbn; now rewrite IH.
Qed.

(** With build-info collection off, [Upload] calls neither the
    general-details save nor the formatter nor the commit, and returns the
    specification it was given. *)
Lemma Upload_collection_off (uploadSpec : spec.SpecFiles)
    (configuration : UploadConfiguration) (w : World) :
  isCollectBuildInfo configuration && negb (DryRun configuration) = false ->
  existsb isGeneralDetails (snd (Upload uploadSpec configuration w)) = false
  /\ existsb isFormatterCall (snd (Upload uploadSpec configuration w)) = false
  /\ existsb isCommit (snd (Upload uploadSpec configuration w)) = false
  /\ fst (fst (fst (Upload uploadSpec configuration w))) = uploadSpec.
Proof.
  intros Hoff.
  destruct (entersLoop uploadSpec configuration w) as [[[[mgr spec1] w2] t12]|] eqn:Henter.
  - rewrite (Upload_enters _ _ _ _ _ _ _ Henter), Hoff.
    destruct (entersLoop_Some _ _ _ _ _ _ _ Henter) as (w1 & _ & Hpre).
    rewrite (buildInfoCollection_off _ _ _ Hoff) in Hpre. injection Hpre as <- <- <-.
    destruct (uploadLoop_summary _ _ _ _ _ _ _ Henter)
      as (v & w3 & t3 & -> & _ & _ & _ & _ & _ & Hkind).
    destruct (loop_trace_readings _ Hkind) as (Hc & Hg & Hf).
    destruct (errorOccurred v), (0 <? failCount v); cbn [fst snd app]; auto.
  - unfold entersLoop in Henter. unfold Upload, bind.
    pose proof (createServiceManager_quiet configuration w) as Hquiet.
    destruct (createServiceManager configuration w) as [[[e | mgr] w1] t1];
      cbn in Hquiet; subst t1; [cbn; auto |].
    rewrite (buildInfoCollection_off _ _ _ Hoff) in Henter. discriminate.
Qed.

(** X10: [Upload] never adds, drops or reorders entries, and changes
    nothing of an entry but its property string: the specification a run
    leaves has, index by index, the entries it was given, each with its
    pattern, target and overrides. *)
Theorem Upload_keeps_entries (uploadSpec : spec.SpecFiles)
    (configuration : UploadConfiguration) (w : World) :
  Forall2 sameButProps (spec.Files uploadSpec)
          (spec.Files (fst (fst (fst (Upload uploadSpec configuration w))))).
Proof.
  destruct (entersLoop uploadSpec configuration w) as [[[[mgr spec1] w2] t12]|] eqn:Henter.
  - rewrite (Upload_enters _ _ _ _ _ _ _ Henter).
    destruct (entersLoop_Some _ _ _ _ _ _ _ Henter) as (w1 & _ & Hpre).
    destruct (buildInfoCollection_facts _ _ _ _ _ _ _ Hpre) as [Hsame _].
    destruct (uploadLoop _ _ _ w2) as [[v w3] t3].
    destruct (errorOccurred v); [exact Hsame |].
    destruct (0 <? failCount v); [exact Hsame |].
    destruct (isCollectBuildInfo configuration && negb (DryRun configuration));
      [| exact Hsame].
    cbn zeta. now destruct (SavePartialBuildInfo _ _ _ w3).
  - destruct (Upload_fatal _ _ _ Henter) as (e & w' & tr & -> & _).
    apply sameButProps_refl.
Qed.

(** X11: without a build name or without a build number, [Upload] calls
    neither the general-details save nor the property formatter nor the
    commit, whatever the dry-run flag, and returns the specification
    unchanged. *)
Theorem Upload_without_build_info (uploadSpec : spec.SpecFiles)
    (configuration : UploadConfiguration) (w : World) :
  BuildName configuration = ""%string \/ BuildNumber configuration = ""%string ->
  let '((uploadSpec', _), _, tr) := Upload uploadSpec configuration w in
  existsb isGeneralDetails tr = false
  /\ existsb isFormatterCall tr = false
  /\ existsb isCommit tr = false
  /\ uploadSpec' = uploadSpec.
Proof.
  intros Hnone.
  assert (Hoff : isCollectBuildInfo configuration && negb (DryRun configuration) = false).
  { unfold isCollectBuildInfo. destruct Hnone as [-> | ->]; cbn;
      rewrite ?andb_false_r; reflexivity. }
  pose proof (Upload_collection_off uploadSpec configuration w Hoff) as Hrun.
  destruct (Upload uploadSpec configuration w) as [[[spec' r] w'] tr]. exact Hrun.
Qed.

End Runs.

(** *** [Upload]: the calls of a run *)

Section RunCalls.
Context `{Collaborators}.

(** The calls of a run that reached its transfer loop: those made before
    the loop, those of the loop, and at the end the commit or nothing;
    the error returned beside a commit is the commit's answer. *)
Lemma Upload_run_shape (uploadSpec uploadSpec1 : spec.SpecFiles)
    (configuration : UploadConfiguration) (w w2 : World)
    (servicesManager : ServicesManager) (t12 : list Event) :
  entersLoop uploadSpec configuration w = Some (servicesManager, uploadSpec1, w2, t12) ->
  exists (v : LoopVars) (w3 w' : World) (t3 c : list Event) (err : option error),
    uploadLoop servicesManager uploadSpec1 configuration w2 = (v, w3, t3)
    /\ Upload uploadSpec configuration w
       = ((uploadSpec1, (successCount v, failCount v, err)), w', t12 ++ t3 ++ c)
    /\ (c = []
        \/ exists populateFunc : Partial -> Partial,
             c = [EvSavePartialBuildInfo (BuildName configuration)
                    (BuildNumber configuration) populateFunc err]).
Proof.
  intros Henter. rewrite (Upload_enters _ _ _ _ _ _ _ Henter).
  destruct (uploadLoop servicesManager uploadSpec1 configuration w2) as [[v w3] t3].
  exists v, w3.
  destruct (errorOccurred v).
  { exists w3, t3, [], (Some finishedWithErrors). rewrite app_nil_r. auto. }
  destruct (0 <? failCount v).
  { exists w3, t3, [], None. rewrite app_nil_r. auto. }
  destruct (isCollectBuildInfo configuration && negb (DryRun configuration)).
  - cbn zeta. destruct (SavePartialBuildInfo _ _ _ w3) as [err w4].
    exists w4, t3, [EvSavePartialBuildInfo (BuildName configuration)
                      (BuildNumber configuration)
                      (populateWith (convertFileInfoToBuildArtifacts (filesInfo v))) err], err.
    repeat split. right. now eexists.
  - exists w3, t3, [], None. rewrite app_nil_r. auto.
Qed.

Lemma preflight_kinds (t : list Event) :
  Forall (fun ev => isGeneralDetails ev || isFormatterCall ev = true) t ->
  Forall (fun ev => isLog ev = false) t
  /\ Forall (fun ev => clientFailed ev = false) t
  /\ callParams t = [].
Proof.
  induction 1 as [|ev t Hev _ (IH1 & IH2 & IH3)]; [repeat split; constructor |].
  destruct ev; try discriminate; repeat split; try (constructor; [reflexivity | assumption]);
    exact IH3.
Qed.

Lemma general_only_kinds (t : list Event) :
  Forall (fun ev => isGeneralDetails ev = true) t ->
  Forall (fun ev => isGeneralDetails ev || isFormatterCall ev = true) t.
Proof. intros Hkind. eapply Forall_impl; [exact Hkind |]. now intros ev ->. Qed.

(** X12: every per-entry error of the transfer loop is logged once and
    nothing else is: the number of [log.Error] calls of a run that
    reached the loop is the number of entries whose parameters cannot be
    built plus the number of client calls that returned an error (an
    error of the property formatter or of the commit is not logged); a
    run stopped before the loop logs nothing. *)
Theorem Upload_logs_each_error_once (uploadSpec : spec.SpecFiles)
    (configuration : UploadConfiguration) (w : World) :
  let '(_, _, tr) := Upload uploadSpec configuration w in
  (is_Some (entersLoop uploadSpec configuration w) ->
   countCalls isLog tr
   = (length (List.filter (paramsFail configuration) (spec.Files uploadSpec))
      + countCalls clientFailed tr)%nat)
  /\ (entersLoop uploadSpec configuration w = None -> countCalls isLog tr = 0%nat).
Proof.
  destruct (entersLoop uploadSpec configuration w) as [[[[mgr spec1] w2] t12]|] eqn:Henter.
  - destruct (Upload_run_shape _ _ _ _ _ _ _ Henter)
      as (v & w3 & w' & t3 & c & err & Hloop & -> & Hc).
    split; [intros _ | discriminate].
    destruct (entersLoop_Some _ _ _ _ _ _ _ Henter) as (w1 & _ & Hpre).
    destruct (buildInfoCollection_facts _ _ _ _ _ _ _ Hpre) as [Hsame Hkind12].
    destruct (preflight_kinds _ Hkind12) as (Hlog12 & Hfail12 & _).
    rewrite uploadLoop_forEach in Hloop.
    pose proof (forEach_uploadFile_logs _ _ _ _ _ _ _ _ Hloop) as Hlogs.
    rewrite (sameButProps_filter _ _ _ Hsame) in Hlogs.
    rewrite !countCalls_app, (countCalls_none _ _ Hlog12), (countCalls_none _ _ Hfail12),
      Hlogs.
    destruct Hc as [-> | [pf ->]]; cbn; lia.
  - destruct (Upload_fatal _ _ _ Henter) as (e & w' & tr & -> & Hkind).
    split; [intros [x Hx]; discriminate | intros _].
    apply countCalls_none.
    now apply (preflight_kinds _ (general_only_kinds _ Hkind)).
Qed.

(** X13: in a run that reached its transfer loop, the client is called
    once for each entry whose parameters can be built, in the order of the
    specification, with the parameters of the entry as the run leaves it
    (its property string with the build properties, when they were
    injected), whether or not earlier entries failed; a run stopped before
    the loop never calls the client. *)
Theorem Upload_calls_each_entry_once (uploadSpec : spec.SpecFiles)
    (configuration : UploadConfiguration) (w : World) :
  let '((uploadSpec', _), _, tr) := Upload uploadSpec configuration w in
  (is_Some (entersLoop uploadSpec configuration w) ->
   callParams tr = omap (okParams configuration) (spec.Files uploadSpec'))
  /\ (entersLoop uploadSpec configuration w = None -> callParams tr = []).
Proof.
  destruct (entersLoop uploadSpec configuration w) as [[[[mgr spec1] w2] t12]|] eqn:Henter.
  - destruct (Upload_run_shape _ _ _ _ _ _ _ Henter)
      as (v & w3 & w' & t3 & c & err & Hloop & -> & Hc).
    split; [intros _ | discriminate].
    destruct (entersLoop_Some _ _ _ _ _ _ _ Henter) as (w1 & _ & Hpre).
    destruct (buildInfoCollection_facts _ _ _ _ _ _ _ Hpre) as [_ Hkind12].
    destruct (preflight_kinds _ Hkind12) as (_ & _ & Hcalls12).
    rewrite uploadLoop_forEach in Hloop.
    pose proof (forEach_uploadFile_calls _ _ _ _ _ _ _ _ Hloop) as Hcalls.
    unfold callParams in *. rewrite !omap_app, Hcalls12, Hcalls.
    destruct Hc as [-> | [pf ->]]; cbn; now rewrite app_nil_r.
  - destruct (Upload_fatal _ _ _ Henter) as (e & w' & tr & -> & Hkind).
    split; [intros [x Hx]; discriminate | intros _].
    now apply (preflight_kinds _ (general_only_kinds _ Hkind)).
Qed.

(** X14: when a run calls the commit, it calls it once, last, for the
    configuration's build name and number, and the error [Upload] returns
    is the commit's answer, so a commit failure is returned although every
    transfer succeeded. *)
Theorem Upload_returns_commit_error (uploadSpec : spec.SpecFiles)
    (configuration : UploadConfiguration) (w : World) :
  let '((_, (_, _, err)), _, tr) := Upload uploadSpec configuration w in
  forall (buildName buildNumber : string) (populateFunc : Partial -> Partial)
         (answer : option error),
    EvSavePartialBuildInfo buildName buildNumber populateFunc answer ∈ tr ->
    err = answer
    /\ buildName = BuildName configuration
    /\ buildNumber = BuildNumber configuration
    /\ last tr = Some (EvSavePartialBuildInfo buildName buildNumber populateFunc answer)
    /\ countCalls isCommit tr = 1%nat.
Proof.
  destruct (entersLoop uploadSpec configuration w) as [[[[mgr spec1] w2] t12]|] eqn:Henter.
  - destruct (Upload_run_shape _ _ _ _ _ _ _ Henter)
      as (v & w3 & w' & t3 & c & err & Hloop & -> & Hc).
    destruct (uploadLoop_summary _ _ _ _ _ _ _ Henter)
      as (v0 & w0 & t0 & Hloop0 & _ & _ & _ & _ & Hkind12 & Hkind3).
    rewrite Hloop in Hloop0. injection Hloop0 as <- <- <-.
    intros n m pf a Hin.
    assert (Hcount : countCalls isCommit (t12 ++ t3) = 0%nat).
    { rewrite countCalls_app.
      rewrite (countCalls_none isCommit t12), (countCalls_none isCommit t3); [reflexivity | |].
      - eapply Forall_impl; [exact Hkind3 |]. intros ev Hev. now destruct ev.
      - eapply Forall_impl; [exact Hkind12 |]. intros ev Hev. now destruct ev. }
    rewrite app_assoc in Hin |- *.
    apply elem_of_app in Hin as [Hin | Hin].
    { apply elem_of_app in Hin as [Hin | Hin];
        [now apply commit_not_preflight in Hin | now apply commit_not_loop in Hin]. }
    destruct Hc as [-> | [pf' ->]]; [now apply elem_of_nil in Hin |].
    apply list_elem_of_singleton in Hin. injection Hin as -> -> -> ->.
    rewrite last_snoc, countCalls_app, Hcount. repeat split.
  - destruct (Upload_fatal _ _ _ Henter) as (e & w' & tr & -> & Hkind).
    intros n m pf a Hin. rewrite Forall_forall in Hkind. now specialize (Hkind _ Hin).
Qed.

End RunCalls.

(** *** [Upload]: counts and the order of calls *)

Section RunOrder.
Context `{Collaborators}.

Lemma sumUploaded_nonneg (tr : list Event) :
  Forall (fun ev => 0 <= uploadedOf ev /\ 0 <= failedOf ev) tr ->
  0 <= sumUploaded tr /\ 0 <= sumFailed tr.
Proof. unfold sumUploaded, sumFailed. induction 1 as [|ev tr [Hu Hf] _ [IHu IHf]]; cbn; lia. Qed.

(** The counts of any run, stopped early or not, are the client's
    sub-counts added up as ints. *)
Lemma Upload_counts (uploadSpec : spec.SpecFiles) (configuration : UploadConfiguration)
    (w : World) :
  let '((_, (succeeded, failed, _)), _, tr) := Upload uploadSpec configuration w in
  succeeded = wrap64 (sumUploaded tr) /\ failed = wrap64 (sumFailed tr).
Proof.
  destruct (entersLoop uploadSpec configuration w) as [[[[mgr spec1] w2] t12]|] eqn:Henter.
  - destruct (Upload_run_shape _ _ _ _ _ _ _ Henter)
      as (v & w3 & w' & t3 & c & err & Hloop & -> & Hc).
    destruct (uploadLoop_summary _ _ _ _ _ _ _ Henter)
      as (v0 & w0 & t0 & Hloop0 & Hs & Hf & _ & _ & _ & _).
    rewrite Hloop in Hloop0. injection Hloop0 as <- <- <-.
    rewrite app_assoc.
    destruct Hc as [-> | [pf ->]]; [now rewrite app_nil_r |].
    match goal with |- context [(t12 ++ t3) ++ [?ev]] =>
      destruct (commit_readings (t12 ++ t3) ev eq_refl) as (-> & -> & _)
    end.
    now split.
  - destruct (Upload_fatal _ _ _ Henter) as (e & w' & tr & -> & Hkind).
    destruct (preflight_trace_readings _ (general_only_kinds _ Hkind)) as (-> & -> & _).
    now split.
Qed.

(** X15: the counts [Upload] returns are always within the int range;
    when the client's sub-counts are non-negative and their sums fit in an
    int, the counts are exactly those sums, and so never negative. *)
Theorem Upload_counts_in_range (uploadSpec : spec.SpecFiles)
    (configuration : UploadConfiguration) (w : World) :
  let '((_, (succeeded, failed, _)), _, tr) := Upload uploadSpec configuration w in
  minInt64 <= succeeded <= maxInt64
  /\ minInt64 <= failed <= maxInt64
  /\ (Forall (fun ev => 0 <= uploadedOf ev /\ 0 <= failedOf ev) tr ->
      sumUploaded tr <= maxInt64 -> sumFailed tr <= maxInt64 ->
      succeeded = sumUploaded tr /\ failed = sumFailed tr
      /\ 0 <= succeeded /\ 0 <= failed).
Proof.
  pose proof (Upload_counts uploadSpec configuration w) as Hcounts.
  destruct (Upload uploadSpec configuration w) as [[[spec' [[sc fc] err]] w'] tr].
  destruct Hcounts as [-> ->].
  split; [apply wrap64_range |]. split; [apply wrap64_range |].
  intros [Hu Hf]%sumUploaded_nonneg Hfitu Hfitf.
  rewrite !wrap64_id by (unfold minInt64, maxInt64 in *; lia). auto.
Qed.

Lemma loop_kinds_counts (t : list Event) :
  Forall (fun ev => isClientCall ev || isLog ev = true) t ->
  countCalls isGeneralDetails t = 0%nat /\ countCalls isFormatterCall t = 0%nat.
Proof.
  intros Hkind. split; apply countCalls_none;
    (eapply Forall_impl; [exact Hkind |]); intros ev Hev; now destruct ev.
Qed.

(** X16: in a run that reached its transfer loop with build name and
    number set and dry-run off, the general-details save was called once
    and the property formatter once for each entry of the specification,
    a formatter error on one entry not keeping the others from being
    formatted; with build-info collection off, neither was called. *)
Theorem Upload_preflight_calls (uploadSpec : spec.SpecFiles)
    (configuration : UploadConfiguration) (w : World) :
  is_Some (entersLoop uploadSpec configuration w) ->
  let '(_, _, tr) := Upload uploadSpec configuration w in
  if isCollectBuildInfo configuration && negb (DryRun configuration)
  then countCalls isGeneralDetails tr = 1%nat
       /\ countCalls isFormatterCall tr = length (spec.Files uploadSpec)
  else countCalls isGeneralDetails tr = 0%nat
       /\ countCalls isFormatterCall tr = 0%nat.
Proof.
  intros [[[[mgr spec1] w2] t12] Henter].
  destruct (Upload_run_shape _ _ _ _ _ _ _ Henter)
    as (v & w3 & w' & t3 & c & err & Hloop & -> & Hc).
  destruct (uploadLoop_summary _ _ _ _ _ _ _ Henter)
    as (v0 & w0 & t0 & Hloop0 & _ & _ & _ & _ & _ & Hkind3).
  rewrite Hloop in Hloop0. injection Hloop0 as <- <- <-.
  destruct (loop_kinds_counts _ Hkind3) as [Hg3 Hf3].
  destruct (entersLoop_Some _ _ _ _ _ _ _ Henter) as (w1 & _ & Hpre).
  assert (Hc0 : countCalls isGeneralDetails c = 0%nat /\ countCalls isFormatterCall c = 0%nat)
    by (destruct Hc as [-> | [pf ->]]; split; reflexivity).
  destruct Hc0 as [Hgc Hfc].
  rewrite !countCalls_app, Hg3, Hf3, Hgc, Hfc, !Nat.add_0_r.
  destruct (buildInfoCollection_shape _ _ _ _ _ _ Hpre)
    as [(-> & -> & _) | (-> & t2 & -> & Hkind2 & Hlen)].
  - split; reflexivity.
  - change (EvSaveBuildGeneralDetails (BuildName configuration)
              (BuildNumber configuration) None :: t2)
      with ([EvSaveBuildGeneralDetails (BuildName configuration)
               (BuildNumber configuration) None] ++ t2).
    rewrite !countCalls_app, (countCalls_all _ _ Hkind2), Hlen.
    rewrite (countCalls_none isGeneralDetails t2);
      [split; reflexivity |].
    eapply Forall_impl; [exact Hkind2 |]. intros ev Hev. now destruct ev.
Qed.

(** X17: the calls of any run come in this order: the general-details
    save (at most one), then the calls to the property formatter, then
    the calls to the client and the logger, then the commit (at most
    one). *)
Theorem Upload_call_order (uploadSpec : spec.SpecFiles)
    (configuration : UploadConfiguration) (w : World) :
  exists g f l c : list Event,
    snd (Upload uploadSpec configuration w) = g ++ f ++ l ++ c
    /\ Forall (fun ev => isGeneralDetails ev = true) g /\ (length g <= 1)%nat
    /\ Forall (fun ev => isFormatterCall ev = true) f
    /\ Forall (fun ev => isClientCall ev || isLog ev = true) l
    /\ Forall (fun ev => isCommit ev = true) c /\ (length c <= 1)%nat.
Proof.
  destruct (entersLoop uploadSpec configuration w) as [[[[mgr spec1] w2] t12]|] eqn:Henter.
  - destruct (Upload_run_shape _ _ _ _ _ _ _ Henter)
      as (v & w3 & w' & t3 & c & err & Hloop & -> & Hc).
    destruct (uploadLoop_summary _ _ _ _ _ _ _ Henter)
      as (v0 & w0 & t0 & Hloop0 & _ & _ & _ & _ & _ & Hkind3).
    rewrite Hloop in Hloop0. injection Hloop0 as <- <- <-.
    destruct (entersLoop_Some _ _ _ _ _ _ _ Henter) as (w1 & _ & Hpre).
    assert (Hcommit : Forall (fun ev => isCommit ev = true) c /\ (length c <= 1)%nat).
    { destruct Hc as [-> | [pf ->]]; split; cbn; try lia; repeat constructor. }
    destruct Hcommit as [Hkc Hlc]. cbn [snd].
    destruct (buildInfoCollection_shape _ _ _ _ _ _ Hpre)
      as [(_ & -> & _) | (_ & t2 & -> & Hkind2 & _)].
    + exists [], [], t3, c. cbn. repeat split; try assumption; try constructor; lia.
    + exists [EvSaveBuildGeneralDetails (BuildName configuration)
                (BuildNumber configuration) None], t2, t3, c.
      cbn. repeat split; try assumption; try lia. repeat constructor.
  - unfold entersLoop in Henter. unfold Upload, bind.
    pose proof (createServiceManager_quiet configuration w) as Hquiet.
    destruct (createServiceManager configuration w) as [[[e | mgr] w1] t1];
      cbn in Hquiet; subst t1.
    + exists [], [], [], []. cbn. repeat split; try constructor; lia.
    + destruct (isCollectBuildInfo configuration && negb (DryRun configuration)) eqn:Hon.
      * rewrite (buildInfoCollection_on _ _ _ Hon) in Henter |- *.
        destruct (SaveBuildGeneralDetails _ _ w1) as [[e|] w2].
        -- exists [EvSaveBuildGeneralDetails (BuildName configuration)
                     (BuildNumber configuration) (Some e)], [], [], [].
           cbn. repeat split; try constructor; try lia. reflexivity. constructor.
        -- destruct (injectAll configuration (spec.Files uploadSpec) w2) as [[fs w3] t3].
           discriminate.
      * rewrite (buildInfoCollection_off _ _ _ Hon) in Henter. discriminate.
Qed.

End RunOrder.

(** *** The further properties on the scripted world *)

(** Entry B has the override recursive = "true" and no other: its
    parameters build, recursive and flat true, the others false. *)
Lemma getUploadParams_resolved_witness :
  @getUploadParams Demo.demo Demo.entryB (Demo.config "b" "7" false)
  = (@resolvedParams Demo.demo Demo.entryB (Demo.config "b" "7" false), None).
Proof.
  apply (@getUploadParams_resolved Demo.demo).
  intros [[_ Hbad] | [[Hraw _] | [[Hraw _] | [[Hraw _] | [Hraw _]]]]];
    [apply Hbad; vm_compute; reflexivity | now contradiction Hraw ..].
Defined.

(** Two configurations that differ in threads, minimum size, build, dry
    run and the explode flag give entry B the same parameters. *)
Lemma getUploadParams_reads_three_fields_witness :
  @getUploadParams Demo.demo Demo.entryB (Demo.config "b" "7" false)
  = @getUploadParams Demo.demo Demo.entryB (Demo.otherConfig "" "" true).
Proof.
  apply (@getUploadParams_reads_three_fields Demo.demo); reflexivity.
Defined.

(** Entry C: the error is [ParseBool]'s on "maybe". *)
Lemma getUploadParams_first_error_witness :
  snd (@getUploadParams Demo.demo Demo.entryC (Demo.config "" "" false))
  = snd (ParseBool "maybe").
Proof.
  apply (proj1 (@getUploadParams_first_error Demo.demo Demo.entryC
                  (Demo.config "" "" false))).
  split; [discriminate | vm_compute; discriminate].
Defined.

(** A build name without a build number: no build-info call. *)
Lemma Upload_without_build_info_witness :
  let '((uploadSpec', _), _, tr) :=
    @Upload Demo.demo Demo.specAB (Demo.config "b" "" false) (Demo.world ∅) in
  existsb isGeneralDetails tr = false
  /\ existsb isFormatterCall tr = false
  /\ existsb isCommit tr = false
  /\ uploadSpec' = Demo.specAB.
Proof.
  apply (@Upload_without_build_info Demo.demo Demo.specAB (Demo.config "b" "" false)
           (Demo.world ∅)).
  right. reflexivity.
Defined.

(** Entry A transfers 3 of 3 files and the store refuses the commit: the
    refusal is the error of the run. *)
Lemma Upload_returns_commit_error_witness :
  snd (snd (fst (fst (@Upload Demo.demo Demo.specA (Demo.config "b" "7" false)
                        Demo.commitRefused))))
  = Some (ErrorString "cannot write partial build info").
Proof.
  pose proof (@Upload_returns_commit_error Demo.demo Demo.specA
                (Demo.config "b" "7" false) Demo.commitRefused) as Hthm.
  destruct (@Upload Demo.demo Demo.specA (Demo.config "b" "7" false) Demo.commitRefused)
    as [[[spec' [[sc fc] err]] w'] tr] eqn:Hrun.
  cbn [fst snd]. vm_compute in Hrun. injection Hrun as <- <- <- <- <- <-.
  refine (proj1 (Hthm "b"%string "7"%string _
                   (Some (ErrorString "cannot write partial build info")) _)).
  do 3 apply list_elem_of_further. apply list_elem_of_here.
Defined.

(** Build "b" number "7" over entries A and B: one general-details save,
    two formatter calls. *)
Lemma Upload_preflight_calls_witness :
  let '(_, _, tr) :=
    @Upload Demo.demo Demo.specAB (Demo.config "b" "7" false) (Demo.world ∅) in
  if @isCollectBuildInfo Demo.demo (Demo.config "b" "7" false)
     && negb (@DryRun Demo.demo (Demo.config "b" "7" false))
  then countCalls isGeneralDetails tr = 1%nat
       /\ countCalls isFormatterCall tr = length (spec.Files Demo.specAB)
  else countCalls isGeneralDetails tr = 0%nat
       /\ countCalls isFormatterCall tr = 0%nat.
Proof.
  apply (@Upload_preflight_calls Demo.demo Demo.specAB (Demo.config "b" "7" false)
           (Demo.world ∅)).
  eexists. vm_compute. reflexivity.
Defined.

Section RunError.
Context `{Collaborators}.

(** X18: with build-info collection off (no build name, no build number,
    or a dry run), a run that reached its transfer loop returns an error
    exactly when some entry's parameter build or client call returned an
    error, and that error is the generic "finished with errors"; failed
    files alone never make the error non-nil. *)
Theorem Upload_error_without_build_info (uploadSpec : spec.SpecFiles)
    (configuration : UploadConfiguration) (w : World) :
  is_Some (entersLoop uploadSpec configuration w) ->
  isCollectBuildInfo configuration && negb (DryRun configuration) = false ->
  let '((_, (_, _, err)), _, tr) := Upload uploadSpec configuration w in
  err = if entryError uploadSpec configuration tr then Some finishedWithErrors else None.
Proof.
  intros [[[[mgr spec1] w2] t12] Henter] Hoff.
  rewrite (Upload_enters _ _ _ _ _ _ _ Henter), Hoff.
  destruct (uploadLoop_summary _ _ _ _ _ _ _ Henter)
    as (v & w3 & t3 & -> & _ & _ & _ & He & _ & _).
  cbn beta iota.
  destruct (errorOccurred v); [now rewrite <- He |].
  destruct (0 <? failCount v); now rewrite <- He.
Qed.

End RunError.

(** Entries A and B without a build: one file of B failed, no entry
    errored, and the error is nil. *)
Lemma Upload_error_without_build_info_witness :
  let '((_, (_, _, err)), _, tr) :=
    @Upload Demo.demo Demo.specAB (Demo.config "" "" false) (Demo.world ∅) in
  err = if entryError Demo.specAB (Demo.config "" "" false) tr
        then Some finishedWithErrors else None.
Proof.
  apply (@Upload_error_without_build_info Demo.demo Demo.specAB
           (Demo.config "" "" false) (Demo.world ∅)).
  - eexists. vm_compute. reflexivity.
  - reflexivity.
Defined.
